(** * Ping Monitor: the monitoring engine of [main.py]

    A shallow embedding of the probing, state-tracking, history and alerting
    code of [main.py], and the properties of the engine stated over it.

    Python [str] values are byte strings holding the UTF-8 encoding of the
    text; [dict]s keyed by host are [gmap string _]; mutation of [self] is
    explicit state passing on the record [App]; the wall clock is a counter
    of milliseconds that only a child process advances. *)

From Stdlib Require Import ZArith QArith Ascii String.
From stdpp Require Import gmap strings list pretty.

Local Open Scope Z_scope.

(** ** Constants of [main.py] *)

Definition CHECK_INTERVAL : Z := 5.
Definition PING_TIMEOUT : Z := 2.
Definition MAX_RTT_POINTS : nat := 200.

(** ** The fragment of Python's [str] the prober uses *)

Module PyStr.

(** [sub in s] for a non-empty [sub]. *)
Fixpoint contains (sub s : string) : bool :=
  String.prefix sub s ||
  match s with
  | EmptyString => false
  | String _ s' => contains sub s'
  end.

(** [s.split(sep)] for a non-empty [sep]: matches are taken left to right
    and do not overlap. [skip] counts the characters of the separator just
    matched that are still to be dropped, [cur] is the piece being built. *)
Fixpoint split_go (sep : string) (skip : nat) (cur s : string) : list string :=
  match s with
  | EmptyString => [cur]
  | String c s' =>
      match skip with
      | S k => split_go sep k cur s'
      | O =>
          if String.prefix sep s
          then cur :: split_go sep (String.length sep - 1) "" s'
          else split_go sep 0 (cur +:+ String c "") s'
      end
  end.

Definition split_on (sep s : string) : list string := split_go sep 0 "" s.

(** [s.replace(old, new)] for a non-empty [old]. *)
Fixpoint replace_go (old new : string) (skip : nat) (s : string) : string :=
  match s with
  | EmptyString => ""
  | String c s' =>
      match skip with
      | S k => replace_go old new k s'
      | O =>
          if String.prefix old s
          then new +:+ replace_go old new (String.length old - 1) s'
          else String c (replace_go old new 0 s')
      end
  end.

Definition replace (old new s : string) : string := replace_go old new 0 s.

End PyStr.

(** ** Exceptions and the library interface

    Everything the [try] block of [ping_host] can raise is a subclass of
    [Exception]. *)

Inductive PyException :=
| FileNotFoundError
| PermissionError
| OSError
| UnicodeDecodeError
| ValueError
| IndexError
| TypeError
| MemoryError.

(** A computation that returns or raises. *)
Definition Exc (A : Type) : Type := PyException + A.

Definition ret {A} (a : A) : Exc A := inr a.
Definition raise {A} (e : PyException) : Exc A := inl e.
Definition bind {A B} (m : Exc A) (k : A -> Exc B) : Exc B :=
  match m with
  | inl e => inl e
  | inr a => k a
  end.

Notation "x <- m ;; k" := (bind m (fun x => k))
  (at level 100, m at next level, right associativity).

(** [l[i]]: [IndexError] out of range. *)
Definition index {A} (l : list A) (i : nat) : Exc A :=
  match l !! i with
  | Some a => ret a
  | None => raise IndexError
  end.

(** The parts of the Python runtime that depend on Unicode tables or on
    IEEE arithmetic are an interface; [ping_host] is embedded over any
    implementation of it. *)
Class PyLib := {
  float : Type;
  (** [float(s)]; [None] when it raises [ValueError] *)
  float_of_str : string -> option float;
  (** [round(x, 1)] *)
  round1 : float -> float;
  fsub : float -> float -> float;
  fmul : float -> float -> float;
  float_of_int : Z -> float;
  (** the value [time.time()] returns when the clock shows [n] ms *)
  time_time : N -> float;
  (** [f"{x:.1f}"] *)
  fmt_1f : float -> string;
  (** [datetime.now().strftime("%H:%M:%S")] when the clock shows [n] ms *)
  strftime_HMS : N -> string;
  (** [s.lower()], [s.splitlines()] and [s.split()] *)
  str_lower : string -> string;
  str_splitlines : string -> list string;
  str_split : string -> list string;
}.

(** ** The operating system as the prober sees it *)

Record CompletedProcess := {
  returncode : Z;
  stdout : string;
}.

(** One call of [subprocess.run]: it raises or returns a completed process,
    and the caller is blocked for [run_ms] milliseconds in either case (the
    call is made without [timeout=]). *)
Record ProcRun := {
  run_result : Exc CompletedProcess;
  run_ms : N;
}.

Record Platform := {
  (** [sys.platform.startswith("win")] *)
  is_windows : bool;
  (** the behaviour of a command started when the clock shows the given time *)
  subprocess_run : list string -> N -> ProcRun;
}.

(** ** [ping_host] *)

Section Prober.
Context `{PyLib}.
Variable os : Platform.

Definition ping_cmd (host : string) (timeout : Z) : list string :=
  if is_windows os
  then ["ping"; "-n"; "1"; "-w"; pretty (timeout * 1000); host]
  else ["ping"; "-c"; "1"; "-W"; pretty timeout; host].

(** The [for line in proc.stdout.splitlines()] loop: the first line that
    contains [time=] decides, and [break] leaves the loop. *)
Fixpoint scan_lines (elapsed_ms : float) (lines : list string)
  : Exc (option float) :=
  match lines with
  | [] => ret None
  | line :: rest =>
      if PyStr.contains "time=" (str_lower line)
      then
        part <- index (PyStr.split_on "time=" (str_lower line)) 1 ;;
        tok <- index (str_split part) 0 ;;
        let value := PyStr.replace "мс" "" (PyStr.replace "ms" "" tok) in
        match float_of_str value with
        | Some v => ret (Some v)
        | None => ret (Some (round1 elapsed_ms))
        end
      else scan_lines elapsed_ms rest
  end.

(** The body of the [try] block, from a clock showing [clock]; the second
    component is the clock when the body returns or raises. *)
Definition ping_try (host : string) (timeout : Z) (clock : N)
  : Exc (bool * option float) * N :=
  let start := time_time clock in
  let r := subprocess_run os (ping_cmd host timeout) clock in
  let clock' := (clock + run_ms r)%N in
  (proc <- run_result r ;;
   let elapsed_ms :=
     fmul (fsub (time_time clock') start) (float_of_int 1000) in
   if negb (returncode proc =? 0) then ret (false, None)
   else
     rtt_ms <- scan_lines elapsed_ms (str_splitlines (stdout proc)) ;;
     let rtt_ms :=
       match rtt_ms with
       | None => round1 elapsed_ms
       | Some v => v
       end in
     ret (true, Some rtt_ms),
   clock').

(** [ping_host(host, timeout)]: the result and the clock on return. *)
Definition ping_host (host : string) (timeout : Z) (clock : N)
  : (bool * option float) * N :=
  match ping_try host timeout clock with
  | (inr res, clock') => (res, clock')
  | (inl _, clock') => ((false, None), clock')
  end.

(** An execution error of the probe: the process cannot be started or
    its output decoded, it exits with a non-zero status (an unreachable
    host and a timeout end so), or the scan of its output raises. *)
Definition probe_error (host : string) (timeout : Z) (clock : N) : Prop :=
  let r := run_result (subprocess_run os (ping_cmd host timeout) clock) in
  (exists e, r = inl e) \/
  (exists proc, r = inr proc /\ returncode proc <> 0) \/
  (exists e, (ping_try host timeout clock).1 = inl e).

(** The elapsed time the probe measures around the child process. *)
Definition elapsed_ms (host : string) (timeout : Z) (clock : N) : float :=
  let clock' :=
    (clock + run_ms (subprocess_run os (ping_cmd host timeout) clock))%N in
  fmul (fsub (time_time clock') (time_time clock)) (float_of_int 1000).

End Prober.

(** ** A runtime to compute with

    [Decimal] implements [PyLib] with exact rational arithmetic, decimal
    literals ([12], [12.5], [-0.3], [.5]) and ASCII text. On such inputs it
    agrees with CPython; the theorems that quantify over [PyLib] do not
    depend on it. *)

Module Decimal.

Definition lower_char (c : ascii) : ascii :=
  let n := nat_of_ascii c in
  if (65 <=? n)%nat && (n <=? 90)%nat then ascii_of_nat (n + 32) else c.

Fixpoint lower (s : string) : string :=
  match s with
  | EmptyString => ""
  | String c s' => String (lower_char c) (lower s')
  end.

(** The ASCII line boundaries of [str.splitlines]: LF, VT, FF, CR, FS, GS
    and RS. *)
Definition is_linebreak (c : ascii) : bool :=
  let n := nat_of_ascii c in
  ((10 <=? n)%nat && (n <=? 13)%nat) || ((28 <=? n)%nat && (n <=? 30)%nat).

(** [after_cr]: the previous character was a CR, so an LF here belongs to
    the same line boundary. *)
Fixpoint splitlines_go (after_cr : bool) (cur s : string) : list string :=
  match s with
  | EmptyString => if decide (cur = "") then [] else [cur]
  | String c s' =>
      if after_cr && (nat_of_ascii c =? 10)%nat
      then splitlines_go false cur s'
      else if is_linebreak c
      then cur :: splitlines_go (nat_of_ascii c =? 13)%nat "" s'
      else splitlines_go false (cur +:+ String c "") s'
  end.

Definition splitlines (s : string) : list string := splitlines_go false "" s.

(** The ASCII whitespace of [str.split()]: TAB to CR, FS to US and space. *)
Definition is_space (c : ascii) : bool :=
  let n := nat_of_ascii c in
  ((9 <=? n)%nat && (n <=? 13)%nat) || ((28 <=? n)%nat && (n <=? 32)%nat).

Fixpoint split_ws_go (cur s : string) : list string :=
  match s with
  | EmptyString => if decide (cur = "") then [] else [cur]
  | String c s' =>
      if is_space c
      then (if decide (cur = "") then [] else [cur]) ++ split_ws_go "" s'
      else split_ws_go (cur +:+ String c "") s'
  end.

Definition split_ws (s : string) : list string := split_ws_go "" s.

Definition digit (c : ascii) : option Z :=
  let n := nat_of_ascii c in
  if (48 <=? n)%nat && (n <=? 57)%nat then Some (Z.of_nat (n - 48)) else None.

(** Reads digits and at most one point: the digits read so far as an
    integer [acc], the number [frac] of them after the point, and whether
    a point and a digit were seen. *)
Fixpoint digits_go (acc : Z) (frac : nat) (point seen : bool) (s : string)
  : option Q :=
  match s with
  | EmptyString =>
      if seen then Some (Qred (acc # Pos.of_nat (10 ^ frac))) else None
  | String c s' =>
      match digit c with
      | Some d =>
          digits_go (10 * acc + d) (if point then S frac else frac) point true s'
      | None =>
          if (nat_of_ascii c =? 46)%nat && negb point
          then digits_go acc frac true seen s'
          else None
      end
  end.

Definition of_str (s : string) : option Q :=
  match s with
  | String "-" s' => Qopp <$> digits_go 0 0 false false s'
  | String "+" s' => digits_go 0 0 false false s'
  | _ => digits_go 0 0 false false s
  end.

(** The number of tenths nearest to [x], ties to the even one. *)
Definition tenths (x : Q) : Z :=
  let n := 10 * Qnum x in
  let d := Zpos (Qden x) in
  let q := n / d in
  let r := n mod d in
  match 2 * r ?= d with
  | Lt => q
  | Gt => q + 1
  | Eq => if Z.even q then q else q + 1
  end.

Definition round_1 (x : Q) : Q := Qred (tenths x # 10).

Definition fmt (x : Q) : string :=
  let t := tenths x in
  (if t <? 0 then "-" else "") +:+
  pretty (Z.abs t / 10) +:+ "." +:+ pretty (Z.abs t mod 10).

Definition two_digits (n : N) : string :=
  (if (n <? 10)%N then "0" else "") +:+ pretty n.

(** The clock counts from midnight. *)
Definition hms (n : N) : string :=
  let secs := (n / 1000)%N in
  two_digits ((secs / 3600) mod 24)%N +:+ ":" +:+
  two_digits ((secs / 60) mod 60)%N +:+ ":" +:+
  two_digits (secs mod 60)%N.

#[export] Instance lib : PyLib := {|
  float := Q;
  float_of_str := of_str;
  round1 := round_1;
  fsub := fun a b => Qred (a - b);
  fmul := fun a b => Qred (a * b);
  float_of_int := fun z => z # 1;
  time_time := fun n => Qred (Z.of_N n # 1000);
  fmt_1f := fmt;
  strftime_HMS := hms;
  str_lower := lower;
  str_splitlines := splitlines;
  str_split := split_ws;
|}.

End Decimal.

(** A Linux host on which [ping] prints [out], exits with [rc] and takes
    [ms] milliseconds, whatever the target. *)
Definition fixed_os (rc : Z) (out : string) (ms : N) : Platform := {|
  is_windows := false;
  subprocess_run := fun _ _ =>
    {| run_result := ret {| returncode := rc; stdout := out |}; run_ms := ms |};
|}.

Definition linux_reply : string :=
  "PING 8.8.8.8 (8.8.8.8) 56(84) bytes of data." +:+ String "010" (
  "64 bytes from 8.8.8.8: icmp_seq=1 ttl=117 time=12.3 ms" +:+ String "010" "").


(** ** The application state

    The attributes of [PingMonitorApp] the engine reads and writes. A Tk
    label is the text it shows; the history list box and the Matplotlib
    canvas are outputs. *)

(** An entry of [self.hosts]: [{"name": ..., "host": ...}]. *)
Record Host := {
  h_name : string;
  h_host : string;
}.

(** A value of [self.rows]: the three labels of a table row and the name. *)
Record Row := {
  row_status : string;
  row_rtt : string;
  row_time : string;
  row_name : string;
}.

Definition nl : string := String "010" "".

Section Engine.
Context `{PyLib}.

(** [(datetime.now(), rtt or None)] *)
Definition Sample : Type := N * option float.

Record App := {
  hosts : list Host;
  rows : gmap string Row;
  prev_status : gmap string (option bool);
  events : list string;
  rtt_history : gmap string (list Sample);
  telegram_enabled : bool;
  telegram_bot_token : string;
  telegram_chat_id : string;
  _stop : bool;
  (** [None] until the graph tab is built, then the combo box's value *)
  graph_host_var : option string;
}.

(** What [update_graph] leaves on the canvas; an absent latency is drawn
    as [nan], kept here as [None]. *)
Record Plot := {
  plot_title : string;
  plot_xs : list nat;
  plot_ys : list (option float);
}.

(** What a callback does outside [self]. *)
Inductive Effect :=
| Draw (p : Plot)
| ShowWarning (title message : string)
| StartThread (url chat_id text : string).

(** [self.prev_status.get(host)] *)
Definition get_prev (s : App) (host : string) : option bool :=
  default None (prev_status s !! host).

(** [self.rtt_history.get(host, [])] *)
Definition get_history (s : App) (host : string) : list Sample :=
  default [] (rtt_history s !! host).

Definition update_graph (s : App) : Plot :=
  let host := default "" (graph_host_var s) in
  if decide (host = "") then
    {| plot_title := "Нет данных"; plot_xs := []; plot_ys := [] |}
  else
    match rtt_history s !! host with
    | None => {| plot_title := "Нет данных"; plot_xs := []; plot_ys := [] |}
    | Some hist =>
        match hist with
        | [] => {| plot_title := host +:+ " — нет данных";
                   plot_xs := []; plot_ys := [] |}
        | _ => {| plot_title := "RTT: " +:+ host;
                  plot_xs := seq 1 (length hist);
                  plot_ys := snd <$> hist |}
        end
    end.

Definition event_line (timestamp name host status : string) : string :=
  "[" +:+ timestamp +:+ "] " +:+ name +:+ " (" +:+ host +:+ "): " +:+ status.

Definition append_event (s : App) (timestamp name host status : string) : App :=
  {| hosts := hosts s; rows := rows s; prev_status := prev_status s;
     events := events s ++ [event_line timestamp name host status];
     rtt_history := rtt_history s;
     telegram_enabled := telegram_enabled s;
     telegram_bot_token := telegram_bot_token s;
     telegram_chat_id := telegram_chat_id s;
     _stop := _stop s; graph_host_var := graph_host_var s |}.

Definition send_telegram_alert (s : App) (name host : string) : list Effect :=
  if negb (telegram_enabled s) then []
  else if decide (telegram_bot_token s = "" \/ telegram_chat_id s = "") then []
  else
    [StartThread
       ("https://api.telegram.org/bot" +:+ telegram_bot_token s +:+ "/sendMessage")
       (telegram_chat_id s)
       ("❗ Упал хост:" +:+ nl +:+ name +:+ " (" +:+ host +:+ ")")].

(** The labels, the history and the stored status after a probe. *)
Definition store_probe (s : App) (host : string) (row : Row) (lst : list Sample)
    (is_up : bool) : App :=
  {| hosts := hosts s;
     rows := <[host := row]> (rows s);
     prev_status := <[host := Some is_up]> (prev_status s);
     events := events s;
     rtt_history := <[host := lst]> (rtt_history s);
     telegram_enabled := telegram_enabled s;
     telegram_bot_token := telegram_bot_token s;
     telegram_chat_id := telegram_chat_id s;
     _stop := _stop s; graph_host_var := graph_host_var s |}.

(** [update_row(host, name, is_up, rtt, timestamp)], run when the clock
    shows [now]. *)
Definition update_row (s : App) (host name : string) (is_up : bool)
    (rtt : option float) (timestamp : string) (now : N) : App * list Effect :=
  match rows s !! host with
  | None => (s, [])
  | Some row =>
      let prev := get_prev s host in
      let lst := get_history s host ++ [(now, if is_up then rtt else None)] in
      let lst := if (MAX_RTT_POINTS <? length lst)%nat then drop 1 lst else lst in
      let row' :=
        if is_up
        then {| row_status := "OK";
                row_rtt := match rtt with Some r => fmt_1f r | None => "-" end;
                row_time := timestamp; row_name := row_name row |}
        else {| row_status := "DOWN"; row_rtt := "-";
                row_time := timestamp; row_name := row_name row |} in
      let new_status_str := if is_up then "UP" else "DOWN" in
      let s1 := store_probe s host row' lst is_up in
      let s2 :=
        match prev with
        | Some b =>
            if negb (Bool.eqb b is_up)
            then append_event s1 timestamp name host new_status_str
            else s1
        | None => s1
        end in
      let drawn :=
        if decide (graph_host_var s2 = Some host) then [Draw (update_graph s2)]
        else [] in
      let alert :=
        match prev, is_up with
        | Some true, false =>
            ShowWarning "Хост недоступен"
              ("Объект упал:" +:+ nl +:+ name +:+ " (" +:+ host +:+ ")")
            :: send_telegram_alert s2 name host
        | _, _ => []
        end in
      (s2, drawn ++ alert)
  end.

(** *** Rebuilding the table: [build_rows] and [refresh_graph_hosts] *)

Definition set_graph_host (s : App) (v : option string) : App :=
  {| hosts := hosts s; rows := rows s; prev_status := prev_status s;
     events := events s; rtt_history := rtt_history s;
     telegram_enabled := telegram_enabled s;
     telegram_bot_token := telegram_bot_token s;
     telegram_chat_id := telegram_chat_id s;
     _stop := _stop s; graph_host_var := v |}.

Definition refresh_graph_hosts (s : App) : App :=
  match graph_host_var s with
  | None => s
  | Some cur =>
      let hosts_list := h_host <$> hosts s in
      if bool_decide (cur ∈ hosts_list) then s
      else set_graph_host s (Some (default "" (head hosts_list)))
  end.

Definition fresh_row (name : string) : Row :=
  {| row_status := "..."; row_rtt := "-"; row_time := "-"; row_name := name |}.

(** [{key(h): value(h) for h in hs}], later entries overwriting earlier
    ones. *)
Definition dict_of {V} (value : Host -> V) (hs : list Host) : gmap string V :=
  foldl (fun m h => <[h_host h := value h]> m) ∅ hs.

Definition build_rows (s : App) : App :=
  refresh_graph_hosts
    {| hosts := hosts s;
       rows := dict_of (fun h => fresh_row (h_name h)) (hosts s);
       prev_status := dict_of (fun h => get_prev s (h_host h)) (hosts s);
       events := events s;
       rtt_history := dict_of (fun h => get_history s (h_host h)) (hosts s);
       telegram_enabled := telegram_enabled s;
       telegram_bot_token := telegram_bot_token s;
       telegram_chat_id := telegram_chat_id s;
       _stop := _stop s; graph_host_var := graph_host_var s |}.

(** The state [__init__] leaves, for the hosts and the Telegram settings
    that [load_settings] produced: the table is built first, the graph tab
    after it. *)
Definition init (cfg : list Host) (enabled : bool) (token chat_id : string) : App :=
  let s0 :=
    {| hosts := cfg; rows := ∅;
       prev_status := dict_of (fun _ => None) cfg;
       events := [];
       rtt_history := dict_of (fun _ => []) cfg;
       telegram_enabled := enabled;
       telegram_bot_token := token;
       telegram_chat_id := chat_id;
       _stop := false; graph_host_var := None |} in
  refresh_graph_hosts (set_graph_host (build_rows s0) (Some "")).

(** *** The dialogs that change the configuration *)

Definition set_hosts (s : App) (hs : list Host) : App :=
  {| hosts := hs; rows := rows s; prev_status := prev_status s;
     events := events s; rtt_history := rtt_history s;
     telegram_enabled := telegram_enabled s;
     telegram_bot_token := telegram_bot_token s;
     telegram_chat_id := telegram_chat_id s;
     _stop := _stop s; graph_host_var := graph_host_var s |}.

(** [on_save] of the host dialog; [name] and [host] are the entries
    already stripped, [sel] the selected index of the list box. An index
    out of range raises before anything is written. *)
Definition on_save (s : App) (name host : string) (sel : option nat) : App :=
  if decide (host = "") then s
  else
    let name := if decide (name = "") then host else name in
    let entry := {| h_name := name; h_host := host |} in
    match sel with
    | Some idx =>
        if decide (idx < length (hosts s))%nat
        then build_rows (set_hosts s (<[idx := entry]> (hosts s)))
        else s
    | None => build_rows (set_hosts s (hosts s ++ [entry]))
    end.

(** [on_delete], confirmed by the user. *)
Definition on_delete (s : App) (idx : nat) : App :=
  if decide (idx < length (hosts s))%nat
  then build_rows (set_hosts s (delete idx (hosts s)))
  else s.

Definition on_save_tg (s : App) (enabled : bool) (token chat_id : string) : App :=
  {| hosts := hosts s; rows := rows s; prev_status := prev_status s;
     events := events s; rtt_history := rtt_history s;
     telegram_enabled := enabled;
     telegram_bot_token := token;
     telegram_chat_id := chat_id;
     _stop := _stop s; graph_host_var := graph_host_var s |}.

(** [clear_history], confirmed by the user. *)
Definition clear_history (s : App) : App :=
  {| hosts := hosts s; rows := rows s; prev_status := prev_status s;
     events := []; rtt_history := rtt_history s;
     telegram_enabled := telegram_enabled s;
     telegram_bot_token := telegram_bot_token s;
     telegram_chat_id := telegram_chat_id s;
     _stop := _stop s; graph_host_var := graph_host_var s |}.

Definition on_close (s : App) : App :=
  if _stop s then s
  else
    {| hosts := hosts s; rows := rows s; prev_status := prev_status s;
       events := events s; rtt_history := rtt_history s;
       telegram_enabled := telegram_enabled s;
       telegram_bot_token := telegram_bot_token s;
       telegram_chat_id := telegram_chat_id s;
       _stop := true; graph_host_var := graph_host_var s |}.

(** *** One round of probes: [check_all_hosts] *)

(** A call [self.after(0, self.update_row, ...)] and the clock when it is
    made. *)
Record Posted := {
  post_at : N;
  cb_host : string;
  cb_name : string;
  cb_is_up : bool;
  cb_rtt : option float;
  cb_timestamp : string;
}.

Variable os : Platform.

(** The [for h in hosts_snapshot] loop of the worker thread. *)
Fixpoint check_hosts (hs : list Host) (clock : N) : list Posted :=
  match hs with
  | [] => []
  | h :: rest =>
      let '(is_up, rtt, clock') := ping_host os (h_host h) PING_TIMEOUT clock in
      {| post_at := clock'; cb_host := h_host h; cb_name := h_name h;
         cb_is_up := is_up; cb_rtt := rtt;
         cb_timestamp := strftime_HMS clock' |}
      :: check_hosts rest clock'
  end.

Definition check_all_hosts (s : App) (clock : N) : list Posted :=
  check_hosts (hosts s) clock.

(** [schedule_checks] at time [clock]: nothing once stopped; otherwise the
    worker thread it starts and the time of the next tick. *)
Definition schedule_checks (s : App) (clock : N) : option (list Posted * N) :=
  if _stop s then None
  else Some (check_all_hosts s clock, (clock + Z.to_N (CHECK_INTERVAL * 1000))%N).

End Engine.

(** ** Runs of the main loop *)

Section Runs.
Context `{PyLib}.

(** The arguments of one [update_row] callback and the clock when the
    main loop runs it. *)
Record Call := {
  c_host : string;
  c_name : string;
  c_is_up : bool;
  c_rtt : option float;
  c_timestamp : string;
  c_now : N;
}.

Definition call (s : App) (c : Call) : App * list Effect :=
  update_row s (c_host c) (c_name c) (c_is_up c) (c_rtt c) (c_timestamp c) (c_now c).

(** The callbacks in the order the main loop runs them; every effect is
    kept with the host of the callback that caused it. *)
Fixpoint run (s : App) (calls : list Call) : App * list (string * Effect) :=
  match calls with
  | [] => (s, [])
  | c :: rest =>
      let '(s1, fx) := call s c in
      let '(s2, tr) := run s1 rest in
      (s2, ((fun e => (c_host c, e)) <$> fx) ++ tr)
  end.

(** What the main loop can run between two ticks. *)
Inductive Op :=
| OpUpdateRow (c : Call)
| OpSave (name host : string) (sel : option nat)
| OpDelete (idx : nat)
| OpSaveTelegram (enabled : bool) (token chat_id : string)
| OpClearHistory
| OpSelectGraph (host : string).

Definition step (s : App) (op : Op) : App :=
  match op with
  | OpUpdateRow c => (call s c).1
  | OpSave name host sel => on_save s name host sel
  | OpDelete idx => on_delete s idx
  | OpSaveTelegram enabled token chat_id => on_save_tg s enabled token chat_id
  | OpClearHistory => clear_history s
  | OpSelectGraph host => set_graph_host s (Some host)
  end.

Definition exec (s : App) (ops : list Op) : App := foldl step s ops.

(** The sample a callback appends, and the samples and results a run
    holds for one host. *)
Definition sample_of (c : Call) : Sample :=
  (c_now c, if c_is_up c then c_rtt c else None).

Definition calls_for (h : string) (calls : list Call) : list Call :=
  List.filter (fun c => bool_decide (c_host c = h)) calls.

(** [lst.append(x)] followed by the bounded [lst.pop(0)]. *)
Definition push (lst : list Sample) (x : Sample) : list Sample :=
  let lst := lst ++ [x] in
  if (MAX_RTT_POINTS <? length lst)%nat then drop 1 lst else lst.

(** The last [n] elements. *)
Definition lastn {A} (n : nat) (l : list A) : list A := drop (length l - n) l.

(** The tables are keyed by the same hosts. *)
Definition consistent (s : App) : Prop :=
  dom (prev_status s) = dom (rows s) /\ dom (rtt_history s) = dom (rows s).

Definition bounded (s : App) : Prop :=
  forall h, (length (get_history s h) <= MAX_RTT_POINTS)%nat.

(** The stored status is known and differs from the new one. *)
Definition changed (prev : option bool) (is_up : bool) : bool :=
  match prev with
  | Some b => negb (Bool.eqb b is_up)
  | None => false
  end.

Definition went_down (prev : option bool) (is_up : bool) : bool :=
  match prev, is_up with
  | Some true, false => true
  | _, _ => false
  end.

(** Up-to-down changes in a sequence of results that starts from the
    stored status [prev]. *)
Fixpoint down_edges (prev : option bool) (results : list bool) : nat :=
  match results with
  | [] => 0
  | r :: rest =>
      (match prev, r with Some true, false => 1 | _, _ => 0 end
       + down_edges (Some r) rest)%nat
  end.

Definition is_dialog (e : Effect) : bool :=
  match e with ShowWarning _ _ => true | _ => false end.

Definition is_telegram (e : Effect) : bool :=
  match e with StartThread _ _ _ => true | _ => false end.

Definition count_for (h : string) (p : Effect -> bool)
    (tr : list (string * Effect)) : nat :=
  length (List.filter (fun x => bool_decide (x.1 = h) && p x.2) tr).

Definition telegram_ready (s : App) : bool :=
  telegram_enabled s &&
  negb (bool_decide (telegram_bot_token s = "" \/ telegram_chat_id s = "")).

End Runs.

(** ** The properties as the specification words them *)

Section Stated.
Context `{PyLib}.

(** When the result for [host] is posted in a round. *)
Definition posted_at (posted : list Posted) (host : string) : option N :=
  post_at <$> List.find (fun p => bool_decide (cb_host p = host)) posted.

(** A probe returns within its timeout budget, whatever the process does. *)
Definition within_budget : Prop :=
  forall (os : Platform) (host : string) (timeout : Z) (clock : N),
    ((ping_host os host timeout clock).2 <= clock + Z.to_N (timeout * 1000))%N.

(** The time at which the result for [b] is available depends on the
    probe of [b] alone, not on the probes of the other hosts. *)
Definition probes_independent : Prop :=
  forall (os1 os2 : Platform) (hs : list Host) (clock : N) (b : string),
    is_windows os1 = is_windows os2 ->
    (forall t, subprocess_run os1 (ping_cmd os1 b PING_TIMEOUT) t =
               subprocess_run os2 (ping_cmd os2 b PING_TIMEOUT) t) ->
    posted_at (check_hosts os1 hs clock) b = posted_at (check_hosts os2 hs clock) b.

(** A successful exit always yields a reachable result whose latency is
    the parsed value or, failing that, the rounded elapsed time. *)
Definition success_is_up (os : Platform) (host : string) (timeout : Z)
    (clock : N) : Prop :=
  forall proc,
    run_result (subprocess_run os (ping_cmd os host timeout) clock) = inr proc ->
    returncode proc = 0 ->
    exists v, (ping_host os host timeout clock).1 = (true, Some v).

End Stated.

(** ** A small installation to compute with *)

Module Lab.
Import Decimal.

Definition dns : string := "8.8.8.8".
Definition router : string := "192.168.1.1".

Definition hosts_cfg : list Host :=
  [ {| h_name := "Google DNS"; h_host := dns |};
    {| h_name := "Router"; h_host := router |} ].

Definition start : App := init hosts_cfg true "123:abc" "42".

Definition probe (host : string) (is_up : bool) (now : N) : Call :=
  {| c_host := host; c_name := "Google DNS"; c_is_up := is_up;
     c_rtt := if is_up then Some (123 # 10)%Q else None;
     c_timestamp := strftime_HMS now; c_now := now |}.

(** [n] successful probes of [host], one every five seconds. *)
Definition burst (host : string) (n : nat) : list Call :=
  (fun i => probe host true (5000 * N.of_nat i)) <$> seq 0 n.

(** up, up, down, down, up *)
Definition flapping : list Call :=
  [ probe dns true 0; probe dns true 5000; probe dns false 10000;
    probe dns false 15000; probe dns true 20000 ].

(** [ping] answers after 10 seconds, the name lookup having stalled. *)
Definition slow_os : Platform := fixed_os 0 linux_reply 10000.

(** There is no [ping] executable. *)
Definition no_ping_os : Platform := {|
  is_windows := false;
  subprocess_run := fun _ _ =>
    {| run_result := raise FileNotFoundError; run_ms := 1 |};
|}.

(** [ping] exits with status 0 and its reply line ends after [time=]. *)
Definition cut_reply : string :=
  "64 bytes from 8.8.8.8: icmp_seq=1 ttl=117 time=".

Definition cut_os : Platform := fixed_os 0 cut_reply 15.

(** [ping] of the first host takes [ms] milliseconds, any other 10. *)
Definition first_takes (ms : N) : Platform := {|
  is_windows := false;
  subprocess_run := fun cmd _ =>
    {| run_result := ret {| returncode := 0; stdout := linux_reply |};
       run_ms := if bool_decide (last cmd = Some dns) then ms else 10%N |};
|}.

(** What a round posts when the probe of [dns] takes three seconds. *)
Definition posted_dns : Posted :=
  {| post_at := 3000; cb_host := dns; cb_name := "Google DNS";
     cb_is_up := true; cb_rtt := Some (123 # 10)%Q; cb_timestamp := "00:00:03" |}.

Definition posted_router : Posted :=
  {| post_at := 3010; cb_host := router; cb_name := "Router";
     cb_is_up := true; cb_rtt := Some (123 # 10)%Q; cb_timestamp := "00:00:03" |}.

End Lab.

(** ** The settings file: [load_settings] and [save_settings] *)

Definition DEFAULT_HOSTS : list Host :=
  [ {| h_name := "Google DNS"; h_host := "8.8.8.8" |};
    {| h_name := "Cloudflare DNS"; h_host := "1.1.1.1" |};
    {| h_name := "Яндекс"; h_host := "ya.ru" |};
    {| h_name := "Роутер"; h_host := "192.168.1.1" |} ].

(** A value that [json.load] returns; a dict keeps its keys, which are
    distinct, in the order of the file. *)
#[local] Unset Elimination Schemes.
Inductive Json (Number : Type) : Type :=
| JNull
| JBool (b : bool)
| JNum (n : Number)
| JStr (s : string)
| JList (l : list (Json Number))
| JDict (d : list (string * Json Number)).
#[local] Set Elimination Schemes.

Arguments JNull {Number}.
Arguments JBool {Number} b.
Arguments JNum {Number} n.
Arguments JStr {Number} s.
Arguments JList {Number} l.
Arguments JDict {Number} d.

(** What [load_settings] asks of the runtime beyond [PyLib]: the numbers of
    a JSON file with their [str] and their truth value, [str] of a list or
    a dict, and [s.strip()]. *)
Class PyData := {
  Number : Type;
  num_str : Number -> string;
  num_truthy : Number -> bool;
  py_repr : Json Number -> string;
  str_strip : string -> string;
}.

(** What [load_settings] leaves in [self]. *)
Record Settings := {
  st_hosts : list Host;
  st_enabled : bool;
  st_token : string;
  st_chat_id : string;
}.

Section SettingsFile.
Context `{PyData}.

(** The settings file as [load_settings] finds it: absent, present but not
    readable as JSON, or holding a JSON value. *)
Inductive FileState :=
| NoFile
| Unreadable
| Parsed (data : Json Number).

Definition dict_get (d : list (string * Json Number)) (k : string)
  : option (Json Number) :=
  snd <$> List.find (fun kv => bool_decide (kv.1 = k)) d.

(** [x.get(k, dflt)]; [None] stands for the [AttributeError] raised when
    [x] is not a dict. *)
Definition get (x : Json Number) (k : string) (dflt : Json Number)
  : option (Json Number) :=
  match x with
  | JDict d => Some (default dflt (dict_get d k))
  | _ => None
  end.

Definition is_dict (x : Json Number) : bool :=
  match x with
  | JDict _ => true
  | _ => false
  end.

(** [bool(x)] *)
Definition truthy (x : Json Number) : bool :=
  match x with
  | JNull => false
  | JBool b => b
  | JNum n => num_truthy n
  | JStr s => negb (bool_decide (s = ""))
  | JList l => negb (bool_decide (l = []))
  | JDict d => negb (bool_decide (d = []))
  end.

(** [str(x)] *)
Definition py_str (x : Json Number) : string :=
  match x with
  | JNull => "None"
  | JBool true => "True"
  | JBool false => "False"
  | JNum n => num_str n
  | JStr s => s
  | JList _ | JDict _ => py_repr x
  end.

(** [x or ""] *)
Definition or_empty (x : Json Number) : Json Number :=
  if truthy x then x else JStr "".

(** The [for h in hosts] loop that fills [cleaned]; [None] when an entry
    is not a dict. *)
Fixpoint clean_hosts (hs : list (Json Number)) : option (list Host) :=
  match hs with
  | [] => Some []
  | h :: rest =>
      name ← get h "name" (JStr "");
      host ← get h "host" (JStr "");
      let name := str_strip (py_str name) in
      let host := str_strip (py_str host) in
      cleaned ← clean_hosts rest;
      Some (if decide (host = "") then cleaned
            else {| h_name := if decide (name = "") then host else name;
                    h_host := host |} :: cleaned)
  end.

Definition default_settings : Settings :=
  {| st_hosts := DEFAULT_HOSTS; st_enabled := false;
     st_token := ""; st_chat_id := "" |}.

(** [load_settings]; [None] when it raises, which ends [__init__]. *)
Definition load_settings (file : FileState) : option Settings :=
  match file with
  | NoFile | Unreadable => Some default_settings
  | Parsed data =>
      hosts ← get data "hosts" JNull;
      hs ← match hosts with
           | JList (x :: l) =>
               cleaned ← clean_hosts (x :: l);
               Some (match cleaned with [] => DEFAULT_HOSTS | _ => cleaned end)
           | _ => Some DEFAULT_HOSTS
           end;
      tg ← get data "telegram" (JDict []);
      enabled ← get tg "enabled" (JBool false);
      token ← get tg "bot_token" (JStr "");
      chat_id ← get tg "chat_id" (JStr "");
      Some {| st_hosts := hs;
              st_enabled := truthy enabled;
              st_token := py_str (or_empty token);
              st_chat_id := py_str (or_empty chat_id) |}
  end.

Definition host_json (h : Host) : Json Number :=
  JDict [("name", JStr (h_name h)); ("host", JStr (h_host h))].

Context `{PyLib}.

(** The dict [save_settings] hands to [json.dump]. *)
Definition settings_data (s : App) : Json Number :=
  JDict [ ("hosts", JList (host_json <$> hosts s));
          ("telegram",
           JDict [ ("enabled", JBool (telegram_enabled s));
                   ("bot_token", JStr (telegram_bot_token s));
                   ("chat_id", JStr (telegram_chat_id s)) ]) ].

(** How the write of [save_settings] ends: it goes through, [open] fails
    and leaves the file alone, or [json.dump] fails after [open] has emptied
    the file. A failure is printed and swallowed. *)
Inductive WriteOutcome :=
| Written
| OpenFailed
| DumpFailed.

(** [save_settings]: the file afterwards. *)
Definition save_settings (s : App) (w : WriteOutcome) (file : FileState) : FileState :=
  match w with
  | Written => Parsed (settings_data s)
  | OpenFailed => file
  | DumpFailed => Unreadable
  end.

(** [__init__]: [load_settings], then the tables and the widgets. *)
Definition startup (file : FileState) : option App :=
  st ← load_settings file;
  Some (init (st_hosts st) (st_enabled st) (st_token st) (st_chat_id st)).

End SettingsFile.

(** ** Further notions used in the properties *)

(** A host entry the dialogs and [load_settings] accept. *)
Definition valid_host (h : Host) : Prop := h_host h <> "" /\ h_name h <> "".

Section Notions.
Context `{PyLib}.

(** The main loop runs a posted callback when the clock shows [now]. *)
Definition dispatch (s : App) (p : Posted) (now : N) : App * list Effect :=
  update_row s (cb_host p) (cb_name p) (cb_is_up p) (cb_rtt p) (cb_timestamp p) now.

(** The event lines a sequence of results of one host calls for, starting
    from the stored status [prev]: one for each result that differs from
    the one before it. *)
Fixpoint transitions (prev : option bool) (calls : list Call) : list string :=
  match calls with
  | [] => []
  | c :: rest =>
      (if changed prev (c_is_up c)
       then [event_line (c_timestamp c) (c_name c) (c_host c)
               (if c_is_up c then "UP" else "DOWN")]
       else [])
      ++ transitions (Some (c_is_up c)) rest
  end.

End Notions.

(** ** A settings file and further replies to compute with *)

Module Site.
Import Decimal.

(** [s.strip()] for ASCII white space. *)
Fixpoint lstrip (s : string) : string :=
  match s with
  | EmptyString => ""
  | String c s' => if is_space c then lstrip s' else s
  end.

Fixpoint rstrip (s : string) : string :=
  match s with
  | EmptyString => ""
  | String c s' =>
      match rstrip s' with
      | EmptyString => if is_space c then "" else String c ""
      | r => String c r
      end
  end.

Definition strip (s : string) : string := rstrip (lstrip s).

(** [repr] of a JSON value whose numbers are integers and whose strings
    need no escaping. *)
Fixpoint repr (x : Json Z) : string :=
  match x with
  | JNull => "None"
  | JBool true => "True"
  | JBool false => "False"
  | JNum n => pretty n
  | JStr s => "'" +:+ s +:+ "'"
  | JList l => "[" +:+ String.concat ", " (List.map repr l) +:+ "]"
  | JDict d =>
      "{" +:+
      String.concat ", "
        (List.map (fun kv => let '(k, v) := kv in "'" +:+ k +:+ "': " +:+ repr v) d)
      +:+ "}"
  end.

#[export] Instance data : PyData := {|
  Number := Z;
  num_str := pretty;
  num_truthy := fun n => negb (n =? 0);
  py_repr := repr;
  str_strip := strip;
|}.

(** A hand-edited settings file: padded text, an entry without a name, an
    entry without a host, and a chat id written as a number. *)
Definition edited_file : FileState :=
  Parsed
    (JDict
       [ ("hosts",
          JList
            [ JDict [("name", JStr " Office "); ("host", JStr "10.0.0.1 ")];
              JDict [("host", JStr "ya.ru")];
              JDict [("name", JStr "no host")] ]);
         ("telegram",
          JDict [("enabled", JBool true); ("bot_token", JStr "123:abc");
                 ("chat_id", JNum 42)]) ]).

Definition edited_settings : Settings :=
  {| st_hosts := [ {| h_name := "Office"; h_host := "10.0.0.1" |};
                   {| h_name := "ya.ru"; h_host := "ya.ru" |} ];
     st_enabled := true; st_token := "123:abc"; st_chat_id := "42" |}.

(** A settings file whose top level is a list. *)
Definition list_file : FileState := Parsed (JList [JStr "8.8.8.8"]).

(** The reply of a Windows [ping] to a host on the same network. *)
Definition windows_reply : string :=
  "Reply from 192.168.1.1: bytes=32 time<1ms TTL=64".

Definition lan_os : Platform := fixed_os 0 windows_reply 3.

(** The two lines of [linux_reply]. *)
Definition reply_head : string := "PING 8.8.8.8 (8.8.8.8) 56(84) bytes of data.".
Definition reply_line : string :=
  "64 bytes from 8.8.8.8: icmp_seq=1 ttl=117 time=12.3 ms".

(** The state of [Lab] after the host list has been saved once more with
    the same two hosts and a third one. *)
Definition three_hosts : App := on_save Lab.start "" "1.1.1.1" None.

(** [Lab] with Telegram switched off. *)
Definition quiet : App := init Lab.hosts_cfg false "123:abc" "42".

End Site.

(** * Properties of the prober *)

Section ProberFacts.
Context `{PyLib}.
Variable os : Platform.

(** The clock moves by the running time of the child process and by
    nothing else. *)
Lemma ping_host_clock host timeout clock :
  (ping_host os host timeout clock).2 =
  (clock + run_ms (subprocess_run os (ping_cmd os host timeout) clock))%N.
Proof.
  unfold ping_host, ping_try.
  destruct (run_result _) as [e|proc]; simpl; [done|].
  destruct (negb _); simpl; [done|].
  destruct (scan_lines _ _); done.
Qed.

(** The handler turns whatever the [try] block raises into [(False, None)]. *)
Lemma ping_host_caught host timeout clock e :
  (ping_try os host timeout clock).1 = inl e ->
  (ping_host os host timeout clock).1 = (false, None).
Proof.
  unfold ping_host. destruct (ping_try _ _ _ _) as [[e'|res] c]; simpl; [done|].
  discriminate.
Qed.

Lemma ping_try_spawn_failure host timeout clock e :
  run_result (subprocess_run os (ping_cmd os host timeout) clock) = inl e ->
  (ping_try os host timeout clock).1 = inl e.
Proof. unfold ping_try. intros ->. reflexivity. Qed.

Lemma ping_host_nonzero_exit host timeout clock proc :
  run_result (subprocess_run os (ping_cmd os host timeout) clock) = inr proc ->
  returncode proc <> 0 ->
  (ping_host os host timeout clock).1 = (false, None).
Proof.
  intros Hrun Hrc. unfold ping_host, ping_try. rewrite Hrun. simpl.
  apply Z.eqb_neq in Hrc. rewrite Hrc. reflexivity.
Qed.

(** The scan of the output yields a latency whenever it finds a line with
    [time=] and does not raise. *)
Lemma ping_try_success host timeout clock b r :
  (ping_try os host timeout clock).1 = inr (b, r) ->
  b = true -> is_Some r.
Proof.
  unfold ping_try. destruct (run_result _) as [e|proc]; simpl; [done|].
  destruct (negb _); simpl.
  - intros [= <- <-]. done.
  - destruct (scan_lines _ _) as [e|rtt]; simpl; [done|].
    intros [= <- <-] _. eauto.
Qed.

(** C4. Whatever goes wrong while probing, a process that cannot be
    started, a non-zero exit status or any exception raised inside the
    [try] block, [ping_host] returns [(False, None)], the value it returns
    for a timeout; its result is always a value, never an exception. *)
Theorem ping_host_error_is_down host timeout clock :
  probe_error os host timeout clock ->
  (ping_host os host timeout clock).1 = (false, None).
Proof.
  intros [[e He]|[[proc [Hrun Hrc]]|[e He]]].
  - eapply ping_host_caught, ping_try_spawn_failure, He.
  - eapply ping_host_nonzero_exit; eauto.
  - eapply ping_host_caught, He.
Qed.

(** C10. A result of [ping_host] that says reachable carries a latency:
    the parsed value or the rounded elapsed time, never [None]. *)
Theorem ping_host_up_has_latency host timeout clock r :
  (ping_host os host timeout clock).1 = (true, r) ->
  exists v, r = Some v.
Proof.
  unfold ping_host.
  destruct (ping_try _ _ _ _) as [[e|[b r']] c] eqn:Htry; simpl; [done|].
  intros [= -> ->].
  assert (Hs : (ping_try os host timeout clock).1 = inr (true, r))
    by (rewrite Htry; reflexivity).
  destruct (ping_try_success _ _ _ _ _ Hs eq_refl) as [v ->]. eauto.
Qed.

(** C7, as the code has it. [ping_host] hands the timeout to the [ping]
    command ([-W] seconds, [-w] milliseconds on Windows) and sets no
    deadline of its own: it returns exactly when the child process ends. *)
Theorem ping_host_returns_with_process host timeout clock :
  (ping_host os host timeout clock).2 =
    (clock + run_ms (subprocess_run os (ping_cmd os host timeout) clock))%N /\
  ping_cmd os host timeout =
    (if is_windows os
     then ["ping"; "-n"; "1"; "-w"; pretty (timeout * 1000); host]
     else ["ping"; "-c"; "1"; "-W"; pretty timeout; host]).
Proof. split; [apply ping_host_clock | reflexivity]. Qed.

(** *** The latency of a successful probe *)

Lemma scan_lines_no_time e lines :
  Forall (fun l => PyStr.contains "time=" (str_lower l) = false) lines ->
  scan_lines e lines = ret None.
Proof.
  induction 1 as [|l ls Hl _ IH]; simpl; [done|]. by rewrite Hl.
Qed.

(** X5. No line of the output mentions [time=]: the fallback applies. *)
Lemma ping_host_fallback_no_time host timeout clock proc :
  run_result (subprocess_run os (ping_cmd os host timeout) clock) = inr proc ->
  returncode proc = 0 ->
  Forall (fun l => PyStr.contains "time=" (str_lower l) = false)
    (str_splitlines (stdout proc)) ->
  (ping_host os host timeout clock).1 =
  (true, Some (round1 (elapsed_ms os host timeout clock))).
Proof.
  intros Hrun Hrc Hno. unfold ping_host, ping_try, elapsed_ms.
  rewrite Hrun. simpl. rewrite Hrc. simpl.
  rewrite scan_lines_no_time by done. reflexivity.
Qed.

(** The first line with [time=] has a token after it that [float]
    rejects: the fallback applies. *)
Lemma ping_host_fallback_bad_float host timeout clock proc before line after part tok rest :
  run_result (subprocess_run os (ping_cmd os host timeout) clock) = inr proc ->
  returncode proc = 0 ->
  str_splitlines (stdout proc) = before ++ line :: after ->
  Forall (fun l => PyStr.contains "time=" (str_lower l) = false) before ->
  PyStr.contains "time=" (str_lower line) = true ->
  PyStr.split_on "time=" (str_lower line) !! 1%nat = Some part ->
  str_split part = tok :: rest ->
  float_of_str (PyStr.replace "мс" "" (PyStr.replace "ms" "" tok)) = None ->
  (ping_host os host timeout clock).1 =
  (true, Some (round1 (elapsed_ms os host timeout clock))).
Proof.
  intros Hrun Hrc Hlines Hbefore Hline Hpart Htok Hfloat.
  unfold ping_host, ping_try, elapsed_ms.
  rewrite Hrun. simpl. rewrite Hrc. simpl. rewrite Hlines.
  set (e := fmul _ _).
  assert (Hscan : scan_lines e (before ++ line :: after) = ret (Some (round1 e))).
  { clear Hlines. induction Hbefore as [|l ls Hl _ IH]; simpl.
    - rewrite Hline. unfold index. rewrite Hpart. simpl.
      rewrite Htok. simpl. rewrite Hfloat. reflexivity.
    - rewrite Hl. exact IH. }
  rewrite Hscan. reflexivity.
Qed.

(** X6. The first line with [time=] has nothing but white space after it:
    [part.split()[0]] raises [IndexError] outside the inner [try], the
    outer handler catches it and the host is reported down. *)
Lemma ping_host_empty_token host timeout clock proc before line after part :
  run_result (subprocess_run os (ping_cmd os host timeout) clock) = inr proc ->
  returncode proc = 0 ->
  str_splitlines (stdout proc) = before ++ line :: after ->
  Forall (fun l => PyStr.contains "time=" (str_lower l) = false) before ->
  PyStr.contains "time=" (str_lower line) = true ->
  PyStr.split_on "time=" (str_lower line) !! 1%nat = Some part ->
  str_split part = [] ->
  (ping_host os host timeout clock).1 = (false, None).
Proof.
  intros Hrun Hrc Hlines Hbefore Hline Hpart Htok.
  apply ping_host_caught with (e := IndexError).
  unfold ping_try. rewrite Hrun. simpl. rewrite Hrc. simpl. rewrite Hlines.
  set (e := fmul _ _).
  assert (Hscan : scan_lines e (before ++ line :: after) = raise IndexError).
  { clear Hlines. induction Hbefore as [|l ls Hl _ IH]; simpl.
    - rewrite Hline. unfold index. rewrite Hpart. simpl.
      rewrite Htok. reflexivity.
    - rewrite Hl. exact IH. }
  rewrite Hscan. reflexivity.
Qed.

End ProberFacts.

(** * Properties of the state tracker and the history store *)

Section TrackerFacts.
Context `{PyLib}.
Implicit Types (s : App) (c : Call) (h host name : string).

Lemma update_row_absent s host name is_up rtt ts now :
  rows s !! host = None ->
  update_row s host name is_up rtt ts now = (s, []).
Proof. unfold update_row. intros ->. reflexivity. Qed.

(** The state a callback leaves when the host has a row. *)
Lemma update_row_present s host name is_up rtt ts now row :
  rows s !! host = Some row ->
  let s' := (update_row s host name is_up rtt ts now).1 in
  hosts s' = hosts s /\
  dom (rows s') = dom (rows s) /\
  prev_status s' = <[host := Some is_up]> (prev_status s) /\
  rtt_history s' =
    <[host := push (get_history s host) (now, if is_up then rtt else None)]>
      (rtt_history s) /\
  events s' =
    events s ++
    (if changed (get_prev s host) is_up
     then [event_line ts name host (if is_up then "UP" else "DOWN")]
     else []) /\
  telegram_enabled s' = telegram_enabled s /\
  telegram_bot_token s' = telegram_bot_token s /\
  telegram_chat_id s' = telegram_chat_id s /\
  graph_host_var s' = graph_host_var s.
Proof.
  intros Hrow. unfold update_row. rewrite Hrow. unfold push, changed.
  assert (Hdom : forall r, dom (<[host := r]> (rows s)) = dom (rows s))
    by (intros r; apply dom_insert_lookup_L; eauto).
  destruct (get_prev s host) as [[]|]; destruct is_up; simpl;
    rewrite ?Hdom, ?app_nil_r; repeat split; reflexivity.
Qed.

Lemma get_prev_insert s' s host v h :
  prev_status s' = <[host := Some v]> (prev_status s) ->
  get_prev s' h = if decide (h = host) then Some v else get_prev s h.
Proof.
  intros Hp. unfold get_prev. rewrite Hp.
  destruct (decide (h = host)) as [->|Hne].
  - by rewrite lookup_insert_eq.
  - by rewrite lookup_insert_ne.
Qed.

Lemma get_history_insert s' s host v h :
  rtt_history s' = <[host := v]> (rtt_history s) ->
  get_history s' h = if decide (h = host) then v else get_history s h.
Proof.
  intros Hp. unfold get_history. rewrite Hp.
  destruct (decide (h = host)) as [->|Hne].
  - by rewrite lookup_insert_eq.
  - by rewrite lookup_insert_ne.
Qed.

Lemma call_prev s c h :
  get_prev (call s c).1 h =
  if decide (h = c_host c)
  then (if rows s !! h is Some _ then Some (c_is_up c) else get_prev s h)
  else get_prev s h.
Proof.
  unfold call. destruct (rows s !! c_host c) as [row|] eqn:Hrow.
  - destruct (update_row_present s (c_host c) (c_name c) (c_is_up c) (c_rtt c)
                (c_timestamp c) (c_now c) row Hrow) as (_ & _ & Hp & _).
    rewrite (get_prev_insert _ _ _ _ h Hp).
    destruct (decide _) as [->|]; [by rewrite Hrow|done].
  - rewrite update_row_absent by done. simpl.
    destruct (decide _) as [->|]; [by rewrite Hrow|done].
Qed.

Lemma call_history s c h :
  get_history (call s c).1 h =
  if decide (h = c_host c)
  then (if rows s !! h is Some _ then push (get_history s h) (sample_of c)
        else get_history s h)
  else get_history s h.
Proof.
  unfold call. destruct (rows s !! c_host c) as [row|] eqn:Hrow.
  - destruct (update_row_present s (c_host c) (c_name c) (c_is_up c) (c_rtt c)
                (c_timestamp c) (c_now c) row Hrow) as (_ & _ & _ & Hh & _).
    rewrite (get_history_insert _ _ _ _ h Hh).
    destruct (decide _) as [->|]; [by rewrite Hrow|done].
  - rewrite update_row_absent by done. simpl.
    destruct (decide _) as [->|]; [by rewrite Hrow|done].
Qed.

Lemma call_rows_dom s c : dom (rows (call s c).1) = dom (rows s).
Proof.
  unfold call. destruct (rows s !! c_host c) as [row|] eqn:Hrow.
  - by destruct (update_row_present s (c_host c) (c_name c) (c_is_up c) (c_rtt c)
                (c_timestamp c) (c_now c) row Hrow) as (_ & ? & _).
  - by rewrite update_row_absent.
Qed.

Lemma call_has_row s c h :
  is_Some (rows (call s c).1 !! h) <-> is_Some (rows s !! h).
Proof. by rewrite <- !elem_of_dom, call_rows_dom. Qed.

Lemma call_telegram_ready s c :
  telegram_ready (call s c).1 = telegram_ready s.
Proof.
  unfold call, telegram_ready. destruct (rows s !! c_host c) as [row|] eqn:Hrow.
  - destruct (update_row_present s (c_host c) (c_name c) (c_is_up c) (c_rtt c)
                (c_timestamp c) (c_now c) row Hrow)
      as (_ & _ & _ & _ & _ & -> & -> & -> & _). done.
  - by rewrite update_row_absent.
Qed.

Lemma call_consistent s c : consistent s -> consistent (call s c).1.
Proof.
  intros [Hp Hh]. unfold call.
  destruct (rows s !! c_host c) as [row|] eqn:Hrow.
  - destruct (update_row_present s (c_host c) (c_name c) (c_is_up c) (c_rtt c)
                (c_timestamp c) (c_now c) row Hrow)
      as (_ & Hd & Hp' & Hh' & _).
    assert (c_host c ∈ dom (rows s)) by (apply elem_of_dom; eauto).
    split; rewrite Hd.
    + rewrite Hp', dom_insert_lookup_L; [done|]. apply elem_of_dom. by rewrite Hp.
    + rewrite Hh', dom_insert_lookup_L; [done|]. apply elem_of_dom. by rewrite Hh.
  - rewrite update_row_absent by done. by split.
Qed.

(** *** Transition events *)

Lemma consistent_prev_absent s host :
  consistent s -> rows s !! host = None -> get_prev s host = None.
Proof.
  intros [Hp _] Hrow. unfold get_prev.
  assert (Hnone : prev_status s !! host = None).
  { apply not_elem_of_dom. rewrite Hp. by apply not_elem_of_dom. }
  by rewrite Hnone.
Qed.

Lemma call_events s c :
  consistent s ->
  events (call s c).1 =
  events s ++
  (if changed (get_prev s (c_host c)) (c_is_up c)
   then [event_line (c_timestamp c) (c_name c) (c_host c)
           (if c_is_up c then "UP" else "DOWN")]
   else []).
Proof.
  intros Hc. unfold call. destruct (rows s !! c_host c) as [row|] eqn:Hrow.
  - by destruct (update_row_present s (c_host c) (c_name c) (c_is_up c) (c_rtt c)
                (c_timestamp c) (c_now c) row Hrow) as (_ & _ & _ & _ & ? & _).
  - rewrite update_row_absent by done. simpl.
    rewrite (consistent_prev_absent s _ Hc Hrow). simpl. by rewrite app_nil_r.
Qed.

Lemma changed_iff prev is_up :
  changed prev is_up = true <-> exists b, prev = Some b /\ b <> is_up.
Proof.
  unfold changed. destruct prev as [b|].
  - destruct b, is_up; simpl; split; try done;
      try (intros _; eexists; split; [reflexivity|done]);
      intros (b & [= <-] & Hne); done.
  - split; [done|]. intros (b & ? & _). done.
Qed.

Lemma app_singleton_neq {A} (l : list A) (x : A) : l ++ [x] <> l.
Proof.
  intros Heq. apply (f_equal length) in Heq.
  rewrite length_app in Heq. simpl in Heq. lia.
Qed.

(** C1. In a state whose tables are keyed by the same hosts, as every
    state of the application is, a callback appends a transition event
    exactly when the stored status of the host is known and differs from
    the new one. The first completed probe of a host (stored status
    [None]) and a probe that repeats the stored status append nothing. *)
Theorem update_row_event_iff s host name is_up rtt ts now :
  consistent s ->
  let s' := (update_row s host name is_up rtt ts now).1 in
  let line := event_line ts name host (if is_up then "UP" else "DOWN") in
  ((exists b, get_prev s host = Some b /\ b <> is_up) <->
     events s' = events s ++ [line]) /\
  (~ (exists b, get_prev s host = Some b /\ b <> is_up) <->
     events s' = events s) /\
  (get_prev s host = None -> events s' = events s) /\
  (get_prev s host = Some is_up -> events s' = events s).
Proof.
  intros Hc s' line.
  pose proof (call_events s
    {| c_host := host; c_name := name; c_is_up := is_up; c_rtt := rtt;
       c_timestamp := ts; c_now := now |} Hc) as Hev.
  unfold call in Hev. simpl in Hev. fold s' in Hev. fold line in Hev.
  pose proof (changed_iff (get_prev s host) is_up) as Hch.
  destruct (changed (get_prev s host) is_up) eqn:Hb.
  - assert (Hex : exists b, get_prev s host = Some b /\ b <> is_up)
      by (by apply Hch).
    repeat split.
    + done.
    + done.
    + intros Hno. by destruct Hno.
    + intros Heq. rewrite Hev in Heq. by apply app_singleton_neq in Heq.
    + intros Hnone. destruct Hex as (b & Hs & _). congruence.
    + intros Hsame. destruct Hex as (b & Hs & Hne). congruence.
  - assert (Hno : ~ exists b, get_prev s host = Some b /\ b <> is_up).
    { intros Hex. apply Hch in Hex. done. }
    rewrite app_nil_r in Hev.
    repeat split.
    + intros Hex. done.
    + intros Heq. rewrite Hev in Heq. symmetry in Heq.
      by apply app_singleton_neq in Heq.
    + done.
    + done.
    + done.
    + done.
Qed.

(** *** Alerts *)

Lemma count_for_app h p (tr1 tr2 : list (string * Effect)) :
  count_for h p (tr1 ++ tr2) = (count_for h p tr1 + count_for h p tr2)%nat.
Proof. unfold count_for. by rewrite List.filter_app, length_app. Qed.

Lemma count_for_tagged h h' p (fx : list Effect) :
  count_for h p ((fun e => (h', e)) <$> fx) =
  if decide (h' = h) then length (List.filter p fx) else 0%nat.
Proof.
  unfold count_for. induction fx as [|e fx IH]; simpl.
  - by destruct (decide _).
  - destruct (decide (h' = h)) as [Heq|Hne].
    + rewrite (bool_decide_eq_true_2 _ Heq). simpl.
      destruct (p e); simpl; [f_equal|]; exact IH.
    + rewrite (bool_decide_eq_false_2 _ Hne). simpl. exact IH.
Qed.

Lemma send_telegram_alert_count s name host :
  length (List.filter is_telegram (send_telegram_alert s name host)) =
    (if telegram_ready s then 1 else 0)%nat /\
  List.filter is_dialog (send_telegram_alert s name host) = [].
Proof.
  unfold send_telegram_alert, telegram_ready.
  destruct (telegram_enabled s); simpl; [|done].
  destruct (decide _) as [Hd|Hd].
  - by rewrite (bool_decide_eq_true_2 _ Hd).
  - by rewrite (bool_decide_eq_false_2 _ Hd).
Qed.

(** One callback shows the dialog and calls [send_telegram_alert] once if
    the stored status was up and the new one is down, and not otherwise. *)
Lemma call_alerts s c row :
  rows s !! c_host c = Some row ->
  let went := went_down (get_prev s (c_host c)) (c_is_up c) in
  length (List.filter is_dialog (call s c).2) = (if went then 1 else 0)%nat /\
  length (List.filter is_telegram (call s c).2) =
    (if went && telegram_ready s then 1 else 0)%nat.
Proof.
  intros Hrow. unfold call, update_row. rewrite Hrow. simpl.
  rewrite !List.filter_app, !length_app.
  set (s1 := store_probe _ _ _ _ _).
  set (s2 := match get_prev s (c_host c) with Some _ => _ | None => _ end).
  assert (Hready : telegram_ready s2 = telegram_ready s).
  { subst s2 s1. destruct (get_prev s (c_host c)) as [b|]; [|done].
    by destruct (negb _). }
  assert (Hdrawn : forall d : list Effect,
    d = (if decide (graph_host_var s2 = Some (c_host c))
         then [Draw (update_graph s2)] else []) ->
    length (List.filter is_dialog d) = 0%nat /\
    length (List.filter is_telegram d) = 0%nat).
  { intros d ->. by destruct (decide _). }
  destruct (Hdrawn _ eq_refl) as [-> ->]. clear Hdrawn.
  destruct (send_telegram_alert_count s2 (c_name c) (c_host c)) as [Htg Hdl].
  rewrite Hready in Htg.
  destruct (get_prev s (c_host c)) as [[]|]; destruct (c_is_up c); simpl;
    rewrite ?Hdl, ?Htg; done.
Qed.

Lemma call_alerts_absent s c :
  rows s !! c_host c = None -> (call s c).2 = [].
Proof. intros Hrow. unfold call. by rewrite update_row_absent. Qed.

(** C2. For a host that has a row, over any run of callbacks, those of
    other hosts included, the warning dialog is shown once for each
    up-to-down change of that host's results and at no other callback;
    [send_telegram_alert] is called at the same callbacks and starts its
    thread when Telegram is enabled and configured. *)
Theorem alert_once_per_down_edge s calls h :
  is_Some (rows s !! h) ->
  let tr := (run s calls).2 in
  let edges := down_edges (get_prev s h) (c_is_up <$> calls_for h calls) in
  count_for h is_dialog tr = edges /\
  count_for h is_telegram tr = (if telegram_ready s then edges else 0)%nat.
Proof.
  revert s. induction calls as [|c rest IH]; intros s Hrow; simpl.
  { split; [done|]. by destruct (telegram_ready s). }
  destruct (call s c) as [s1 fx] eqn:Hcall.
  destruct (run s1 rest) as [s2 tr] eqn:Hrun. simpl.
  assert (Hs1 : s1 = (call s c).1) by (by rewrite Hcall).
  assert (Hfx : fx = (call s c).2) by (by rewrite Hcall).
  assert (Hrow1 : is_Some (rows s1 !! h)) by (rewrite Hs1; by apply call_has_row).
  specialize (IH s1 Hrow1). rewrite Hrun in IH. simpl in IH.
  destruct IH as [IHd IHt].
  rewrite !count_for_app, !count_for_tagged, IHd, IHt.
  assert (Hready : telegram_ready s1 = telegram_ready s)
    by (rewrite Hs1; apply call_telegram_ready).
  rewrite Hready.
  pose proof (call_prev s c h) as Hprev. rewrite <- Hs1 in Hprev.
  destruct (decide (c_host c = h)) as [Heq|Hne].
  - subst h. rewrite (bool_decide_eq_true_2 _ eq_refl). simpl.
    destruct Hrow as [row Hrow].
    destruct (call_alerts s c row Hrow) as [Hd Ht]. rewrite <- Hfx in Hd, Ht.
    rewrite Hd, Ht.
    rewrite decide_True in Hprev by done. rewrite Hrow in Hprev. rewrite Hprev.
    unfold went_down.
    destruct (get_prev s (c_host c)) as [[]|]; destruct (c_is_up c);
      destruct (telegram_ready s); simpl; done.
  - rewrite (bool_decide_eq_false_2 _ Hne). simpl.
    rewrite decide_False in Hprev by done. rewrite Hprev. done.
Qed.

(** *** The bounded history *)

Lemma push_lastn (lst : list Sample) x :
  (length lst <= MAX_RTT_POINTS)%nat ->
  push lst x = lastn MAX_RTT_POINTS (lst ++ [x]).
Proof.
  intros Hlen. unfold push, lastn. rewrite length_app. simpl.
  destruct (Nat.ltb_spec MAX_RTT_POINTS (length lst + 1)) as [Hlt|Hle].
  - by replace (length lst + 1 - MAX_RTT_POINTS)%nat with 1%nat by lia.
  - by replace (length lst + 1 - MAX_RTT_POINTS)%nat with 0%nat by lia.
Qed.

Lemma push_length (lst : list Sample) x :
  (length lst <= MAX_RTT_POINTS)%nat ->
  (length (push lst x) <= MAX_RTT_POINTS)%nat.
Proof.
  intros Hlen. unfold push. rewrite length_app. simpl.
  destruct (Nat.ltb_spec MAX_RTT_POINTS (length lst + 1)) as [Hlt|Hle].
  - rewrite length_drop, length_app. simpl. lia.
  - rewrite length_app. simpl. lia.
Qed.

(** At capacity the oldest sample goes and the others keep their order. *)
Lemma push_full (lst : list Sample) x :
  length lst = MAX_RTT_POINTS ->
  push lst x = drop 1 lst ++ [x].
Proof.
  intros Hlen. unfold push. rewrite length_app, Hlen. simpl.
  destruct (Nat.ltb_spec MAX_RTT_POINTS (MAX_RTT_POINTS + 1)) as [_|Hle]; [|lia].
  apply drop_app_le. rewrite Hlen. unfold MAX_RTT_POINTS. lia.
Qed.

Lemma lastn_app_lastn {A} n (l r : list A) :
  lastn n (lastn n l ++ r) = lastn n (l ++ r).
Proof.
  unfold lastn. destruct (decide (length l <= n)%nat) as [Hle|Hgt].
  - by replace (length l - n)%nat with 0%nat by lia.
  - rewrite !length_app, length_drop.
    replace (length l - (length l - n) + length r - n)%nat with (length r) by lia.
    replace (length l + length r - n)%nat with (length l - n + length r)%nat by lia.
    rewrite <- drop_drop. f_equal. symmetry. apply drop_app_le. lia.
Qed.

Lemma lastn_all {A} n (l : list A) : (length l <= n)%nat -> lastn n l = l.
Proof.
  intros Hle. unfold lastn. by replace (length l - n)%nat with 0%nat by lia.
Qed.

Lemma lastn_length {A} n (l : list A) : (length (lastn n l) <= n)%nat.
Proof. unfold lastn. rewrite length_drop. lia. Qed.

Lemma call_bounded s c : bounded s -> bounded (call s c).1.
Proof.
  intros Hb h. rewrite call_history.
  destruct (decide _); [|done]. destruct (rows s !! h); [|done].
  by apply push_length.
Qed.

(** After a run the history of a host holds the most recent
    [MAX_RTT_POINTS] of the samples it had and the ones the run added. *)
Lemma run_history s calls h :
  is_Some (rows s !! h) ->
  (length (get_history s h) <= MAX_RTT_POINTS)%nat ->
  get_history (run s calls).1 h =
  lastn MAX_RTT_POINTS (get_history s h ++ (sample_of <$> calls_for h calls)).
Proof.
  revert s. induction calls as [|c rest IH]; intros s Hrow Hlen; simpl.
  { rewrite app_nil_r. symmetry. by apply lastn_all. }
  destruct (call s c) as [s1 fx] eqn:Hcall.
  destruct (run s1 rest) as [s2 tr] eqn:Hrun. simpl.
  assert (Hs1 : s1 = (call s c).1) by (by rewrite Hcall).
  assert (Hrow1 : is_Some (rows s1 !! h)) by (rewrite Hs1; by apply call_has_row).
  pose proof (call_history s c h) as Hh. rewrite <- Hs1 in Hh.
  assert (Hs2 : s2 = (run s1 rest).1) by (by rewrite Hrun).
  rewrite Hs2.
  destruct (decide (c_host c = h)) as [Heq|Hne].
  - subst h. rewrite (bool_decide_eq_true_2 _ eq_refl). simpl.
    rewrite decide_True in Hh by done.
    destruct Hrow as [row Hrow]. rewrite Hrow in Hh.
    rewrite IH; [|done|rewrite Hh; by apply push_length].
    rewrite Hh, push_lastn by done.
    rewrite lastn_app_lastn. by rewrite <- app_assoc.
  - rewrite (bool_decide_eq_false_2 _ Hne).
    rewrite decide_False in Hh by done.
    rewrite IH; [|done|by rewrite Hh]. by rewrite Hh.
Qed.

(** *** The invariants hold in every state of the application *)

Lemma dict_of_dom {V} (value : Host -> V) hs :
  dom (dict_of value hs) = list_to_set (h_host <$> hs).
Proof.
  unfold dict_of.
  assert (Hgen : forall m : gmap string V,
    dom (foldl (fun m x => <[h_host x := value x]> m) m hs) =
    dom m ∪ list_to_set (h_host <$> hs)).
  { induction hs as [|h hs IH]; intros m; simpl.
    - by rewrite (right_id_L ∅ (∪)).
    - rewrite IH, dom_insert_L.
      by rewrite (comm_L (∪) {[h_host h]} (dom m)), <- (assoc_L (∪)). }
  by rewrite Hgen, dom_empty_L, (left_id_L ∅ (∪)).
Qed.

Lemma dict_of_lookup {V} (f : string -> V) hs k :
  dict_of (fun x => f (h_host x)) hs !! k =
  if decide (k ∈ h_host <$> hs) then Some (f k) else None.
Proof.
  unfold dict_of.
  assert (Hgen : forall m : gmap string V,
    foldl (fun m x => <[h_host x := f (h_host x)]> m) m hs !! k =
    if decide (k ∈ h_host <$> hs) then Some (f k) else m !! k).
  { induction hs as [|h hs IH]; intros m; simpl.
    - done.
    - rewrite IH. destruct (decide (k ∈ h_host <$> hs)) as [Hin|Hnin].
      + rewrite decide_True; [done|]. by apply list_elem_of_further.
      + destruct (decide (k = h_host h)) as [->|Hne].
        * rewrite lookup_insert_eq. rewrite decide_True; [done|].
          apply list_elem_of_here.
        * rewrite lookup_insert_ne by done.
          rewrite decide_False; [done|].
          intros Hin. apply elem_of_cons in Hin. destruct Hin; done. }
  rewrite Hgen. destruct (decide _); [done|]. apply lookup_empty.
Qed.

Lemma refresh_graph_hosts_tables s :
  rows (refresh_graph_hosts s) = rows s /\
  prev_status (refresh_graph_hosts s) = prev_status s /\
  rtt_history (refresh_graph_hosts s) = rtt_history s.
Proof.
  unfold refresh_graph_hosts. destruct (graph_host_var s); [|done].
  by destruct (bool_decide _).
Qed.

Lemma consistent_tables s s' :
  rows s' = rows s -> prev_status s' = prev_status s ->
  rtt_history s' = rtt_history s -> consistent s -> consistent s'.
Proof. unfold consistent. by intros -> -> ->. Qed.

Lemma bounded_tables s s' :
  rtt_history s' = rtt_history s -> bounded s -> bounded s'.
Proof. unfold bounded, get_history. by intros ->. Qed.

Lemma build_rows_consistent s : consistent (build_rows s).
Proof.
  unfold build_rows.
  match goal with |- consistent (refresh_graph_hosts ?t) =>
    destruct (refresh_graph_hosts_tables t) as (Hr & Hp & Hh) end.
  unfold consistent. rewrite Hr, Hp, Hh. simpl.
  by rewrite !dict_of_dom.
Qed.

Lemma build_rows_bounded s : bounded s -> bounded (build_rows s).
Proof.
  intros Hb h. unfold build_rows.
  match goal with |- context [refresh_graph_hosts ?t] =>
    destruct (refresh_graph_hosts_tables t) as (_ & _ & Hh) end.
  unfold get_history at 1. rewrite Hh. simpl.
  rewrite (dict_of_lookup (get_history s)).
  destruct (decide _); simpl; [apply Hb|lia].
Qed.

Lemma init_invariants cfg enabled token chat_id :
  consistent (init cfg enabled token chat_id) /\
  bounded (init cfg enabled token chat_id).
Proof.
  unfold init.
  match goal with |- context [refresh_graph_hosts ?t] =>
    destruct (refresh_graph_hosts_tables t) as (Hr & Hp & Hh) end.
  split.
  - eapply consistent_tables; [exact Hr|exact Hp|exact Hh|].
    eapply consistent_tables; [..|apply build_rows_consistent]; done.
  - eapply bounded_tables; [exact Hh|].
    eapply bounded_tables; [|apply build_rows_bounded]; [done|].
    intros h. unfold get_history. simpl.
    rewrite (dict_of_lookup (fun _ => [])).
    destruct (decide _); simpl; lia.
Qed.

Lemma step_invariants s op :
  consistent s /\ bounded s -> consistent (step s op) /\ bounded (step s op).
Proof.
  intros [Hc Hb]. destruct op as [c|name host sel|idx|en tok chat| |g]; simpl.
  - split; [by apply call_consistent|by apply call_bounded].
  - unfold on_save. destruct (decide _); [done|].
    destruct sel as [idx|].
    + destruct (decide _); [|done].
      split; [apply build_rows_consistent|by apply build_rows_bounded].
    + split; [apply build_rows_consistent|by apply build_rows_bounded].
  - unfold on_delete. destruct (decide _); [|done].
    split; [apply build_rows_consistent|by apply build_rows_bounded].
  - done.
  - done.
  - done.
Qed.

Lemma exec_invariants s ops :
  consistent s /\ bounded s -> consistent (exec s ops) /\ bounded (exec s ops).
Proof.
  revert s. unfold exec. induction ops as [|op ops IH]; intros s Hinv; simpl.
  - done.
  - apply IH. by apply step_invariants.
Qed.

Lemma history_has_row s h :
  consistent s -> get_history s h <> [] -> is_Some (rows s !! h).
Proof.
  intros [_ Hh] Hne. apply elem_of_dom. rewrite <- Hh. apply elem_of_dom.
  unfold get_history in Hne. destruct (rtt_history s !! h); [eauto|done].
Qed.

(** C3. In every state the application reaches from its start, through
    callbacks and through edits of the host list, a host's history holds
    at most [MAX_RTT_POINTS] = 200 samples; and a callback that finds the
    history full drops the sample at index 0, keeps the others in their
    order and puts the new sample last. *)
Theorem history_never_exceeds_capacity cfg enabled token chat_id ops h c :
  let s := exec (init cfg enabled token chat_id) ops in
  MAX_RTT_POINTS = 200%nat /\
  (length (get_history s h) <= MAX_RTT_POINTS)%nat /\
  (c_host c = h ->
   length (get_history s h) = MAX_RTT_POINTS ->
   get_history (call s c).1 h = drop 1 (get_history s h) ++ [sample_of c] /\
   length (get_history (call s c).1 h) = MAX_RTT_POINTS).
Proof.
  intros s.
  destruct (exec_invariants _ ops (init_invariants cfg enabled token chat_id))
    as [Hc Hb]. fold s in Hc, Hb.
  split; [reflexivity|]. split; [apply Hb|].
  intros <- Hfull.
  assert (Hrow : is_Some (rows s !! c_host c)).
  { apply history_has_row; [done|]. intros Hnil. rewrite Hnil in Hfull.
    discriminate. }
  destruct Hrow as [row Hrow].
  rewrite call_history, decide_True, Hrow by done.
  rewrite push_full by done. split; [done|].
  rewrite length_app, length_drop, Hfull. reflexivity.
Qed.

(** C9. Starting from an empty history of a host that has a row, a run
    that brings at most [MAX_RTT_POINTS] = 200 callbacks for that host
    leaves exactly their samples in the order of the callbacks, and
    [update_graph] for that host plots exactly these values, in this
    order, at x = 1, 2, ... *)
Theorem history_round_trip s calls h :
  is_Some (rows s !! h) ->
  h <> "" ->
  get_history s h = [] ->
  (length (calls_for h calls) <= MAX_RTT_POINTS)%nat ->
  let s' := (run s calls).1 in
  let samples := sample_of <$> calls_for h calls in
  get_history s' h = samples /\
  plot_ys (update_graph (set_graph_host s' (Some h))) = snd <$> samples /\
  plot_xs (update_graph (set_graph_host s' (Some h))) = seq 1 (length samples).
Proof.
  intros Hrow Hne Hempty Hlen s' samples.
  assert (Hhist : get_history s' h = samples).
  { subst s' samples. rewrite run_history; [|done|rewrite Hempty; simpl; lia].
    rewrite Hempty, app_nil_l. apply lastn_all. by rewrite length_fmap. }
  split; [done|].
  unfold update_graph. simpl. rewrite decide_False by done.
  unfold get_history in Hhist.
  destruct (rtt_history s' !! h) as [hist|]; simpl in Hhist.
  - rewrite <- Hhist. by destruct hist.
  - by rewrite <- Hhist.
Qed.

End TrackerFacts.

(** * Properties of a round of probes *)

Section SchedulerFacts.
Context `{PyLib}.
Variable os : Platform.

Lemma check_hosts_cons x hs clock :
  check_hosts os (x :: hs) clock =
  let r := ping_host os (h_host x) PING_TIMEOUT clock in
  {| post_at := r.2; cb_host := h_host x; cb_name := h_name x;
     cb_is_up := r.1.1; cb_rtt := r.1.2; cb_timestamp := strftime_HMS r.2 |}
  :: check_hosts os hs r.2.
Proof. simpl. by destruct (ping_host _ _ _ _) as [[is_up rtt] clock']. Qed.

Lemma check_hosts_targets hs clock :
  cb_host <$> check_hosts os hs clock = h_host <$> hs.
Proof.
  revert clock. induction hs as [|x hs IH]; intros clock; [done|].
  rewrite check_hosts_cons. simpl. by rewrite IH.
Qed.

(** The first result of a round is posted when the first probe ends. *)
Lemma check_hosts_first hs clock p :
  check_hosts os hs clock !! 0%nat = Some p ->
  post_at p =
  (clock + run_ms (subprocess_run os (ping_cmd os (cb_host p) PING_TIMEOUT) clock))%N.
Proof.
  destruct hs as [|x hs]; [done|]. rewrite check_hosts_cons. simpl.
  intros [= <-]. simpl. apply ping_host_clock.
Qed.

Lemma check_hosts_next hs clock i p q :
  check_hosts os hs clock !! i = Some p ->
  check_hosts os hs clock !! S i = Some q ->
  post_at q =
  (post_at p +
   run_ms (subprocess_run os (ping_cmd os (cb_host q) PING_TIMEOUT) (post_at p)))%N.
Proof.
  revert clock i. induction hs as [|x hs IH]; intros clock i; [done|].
  rewrite check_hosts_cons. destruct i as [|i]; simpl.
  - intros [= <-] Hq. simpl. exact (check_hosts_first _ _ _ Hq).
  - apply IH.
Qed.

(** C5, as the code has it. One round probes the hosts one after another
    in the order of [self.hosts]: the first result is posted when the
    first probe ends, and the probe of each later host starts when the
    result of the host before it has been posted, so that a result is
    posted only after the probes of all earlier hosts have ended. *)
Theorem probes_run_in_sequence hs clock :
  cb_host <$> check_hosts os hs clock = h_host <$> hs /\
  (forall p, check_hosts os hs clock !! 0%nat = Some p ->
     post_at p =
     (clock +
      run_ms (subprocess_run os (ping_cmd os (cb_host p) PING_TIMEOUT) clock))%N) /\
  (forall i p q,
     check_hosts os hs clock !! i = Some p ->
     check_hosts os hs clock !! S i = Some q ->
     post_at q =
     (post_at p +
      run_ms (subprocess_run os (ping_cmd os (cb_host q) PING_TIMEOUT) (post_at p)))%N).
Proof.
  split; [apply check_hosts_targets|].
  split; [apply check_hosts_first|apply check_hosts_next].
Qed.

(** *** Shutdown *)

(** Once [on_close] has run, [schedule_checks] starts no round and does not
    reschedule itself. *)
Lemma schedule_checks_after_close s clock :
  schedule_checks os (on_close s) clock = None.
Proof.
  unfold schedule_checks, on_close. destruct (_stop s) eqn:Hstop; simpl.
  - by rewrite Hstop.
  - done.
Qed.

Lemma on_close_keeps_tables s :
  prev_status (on_close s) = prev_status s /\
  rtt_history (on_close s) = rtt_history s /\
  events (on_close s) = events s.
Proof. unfold on_close. by destruct (_stop s). Qed.

(** [update_row] does not read [_stop]: run on a closed application it
    writes what it writes on an open one. That no callback runs after
    [on_close] is left to Tk, whose [destroy] ends the main loop. *)
Lemma update_row_after_close s host name is_up rtt ts now :
  let open := (update_row s host name is_up rtt ts now).1 in
  let closed := (update_row (on_close s) host name is_up rtt ts now).1 in
  prev_status closed = prev_status open /\
  rtt_history closed = rtt_history open /\
  events closed = events open.
Proof.
  unfold on_close. destruct (_stop s); [done|].
  unfold update_row, get_prev, get_history. simpl.
  destruct (rows s !! host); [|done].
  destruct (prev_status s !! host) as [[[]|]|]; destruct is_up; done.
Qed.

End SchedulerFacts.

(** * Further properties of the prober *)

Section ProberMore.
Context `{PyLib}.
Variable os : Platform.

(** What a returning [try] block returned. *)
Lemma ping_try_inr host timeout clock b r :
  (ping_try os host timeout clock).1 = inr (b, r) ->
  exists proc,
    run_result (subprocess_run os (ping_cmd os host timeout) clock) = inr proc /\
    ((returncode proc <> 0 /\ b = false /\ r = None) \/
     (returncode proc = 0 /\ b = true /\
      exists o,
        scan_lines (elapsed_ms os host timeout clock)
          (str_splitlines (stdout proc)) = inr o /\
        r = Some (default (round1 (elapsed_ms os host timeout clock)) o))).
Proof.
  unfold ping_try, elapsed_ms.
  destruct (run_result _) as [e|proc]; simpl; [done|].
  intros Hres. exists proc. split; [done|].
  destruct (returncode proc =? 0) eqn:Hrc; simpl in Hres.
  - apply Z.eqb_eq in Hrc. right.
    destruct (scan_lines _ _) as [e|o]; simpl in Hres; [done|].
    injection Hres as <- <-. repeat split; [done|].
    exists o. split; [done|]. by destruct o.
  - apply Z.eqb_neq in Hrc. left. by injection Hres as <- <-.
Qed.

Lemma ping_host_result host timeout clock b r :
  (ping_host os host timeout clock).1 = (b, r) ->
  (ping_try os host timeout clock).1 = inr (b, r) \/ (b = false /\ r = None).
Proof.
  unfold ping_host.
  destruct (ping_try _ _ _ _) as [[e|res] c]; simpl.
  - intros [= <- <-]. by right.
  - intros ->. by left.
Qed.

(** What a scan that found a latency read. *)
Lemma scan_lines_some e lines v :
  scan_lines e lines = inr (Some v) ->
  exists before line after part tok rest,
    lines = before ++ line :: after /\
    Forall (fun l => PyStr.contains "time=" (str_lower l) = false) before /\
    PyStr.contains "time=" (str_lower line) = true /\
    PyStr.split_on "time=" (str_lower line) !! 1%nat = Some part /\
    str_split part = tok :: rest /\
    v = default (round1 e)
          (float_of_str (PyStr.replace "мс" "" (PyStr.replace "ms" "" tok))).
Proof.
  induction lines as [|l ls IH]; simpl; [done|].
  destruct (PyStr.contains "time=" (str_lower l)) eqn:Hl.
  - unfold index.
    destruct (PyStr.split_on "time=" (str_lower l) !! 1%nat) as [part|] eqn:Hpart;
      simpl; [|done].
    destruct (str_split part) as [|tok rest] eqn:Htok; simpl; [done|].
    intros Hv. exists [], l, ls, part, tok, rest.
    repeat split; try done.
    destruct (float_of_str _); simpl in *; by injection Hv as <-.
  - intros Hs. destruct (IH Hs) as (before & line & after & part & tok & rest &
      -> & Hb & Hrest).
    exists (l :: before), line, after, part, tok, rest.
    split; [done|]. split; [by constructor|]. exact Hrest.
Qed.

Lemma scan_lines_none e lines :
  scan_lines e lines = inr None ->
  Forall (fun l => PyStr.contains "time=" (str_lower l) = false) lines.
Proof.
  induction lines as [|l ls IH]; simpl; [by constructor|].
  destruct (PyStr.contains "time=" (str_lower l)) eqn:Hl.
  - unfold index.
    destruct (PyStr.split_on "time=" (str_lower l) !! 1%nat) as [part|]; simpl; [|done].
    destruct (str_split part) as [|tok rest]; simpl; [done|].
    by destruct (float_of_str _).
  - intros Hs. constructor; [done|]. by apply IH.
Qed.

(** X1. A host is reported reachable only if [ping] ran to its end and exited
    with status 0, never after a failed start or a non-zero status. *)
Theorem ping_host_up_only_on_exit_zero host timeout clock r :
  (ping_host os host timeout clock).1 = (true, r) ->
  exists proc,
    run_result (subprocess_run os (ping_cmd os host timeout) clock) = inr proc /\
    returncode proc = 0.
Proof.
  intros Hres. destruct (ping_host_result _ _ _ _ _ Hres) as [Htry|[? _]]; [|done].
  destruct (ping_try_inr _ _ _ _ _ Htry) as (proc & Hrun & [(_ & ? & _)|(Hrc & _)]);
    [done|]. eauto.
Qed.

(** X2. A host reported down never carries a latency. *)
Theorem ping_host_down_has_no_latency host timeout clock r :
  (ping_host os host timeout clock).1 = (false, r) -> r = None.
Proof.
  intros Hres. destruct (ping_host_result _ _ _ _ _ Hres) as [Htry|[_ ?]]; [|done].
  destruct (ping_try_inr _ _ _ _ _ Htry) as (proc & _ & [(_ & _ & ?)|(_ & ? & _)]);
    done.
Qed.

(** X3. The latency of a reachable host is the rounded time the probe took,
    or the number [float] read from the token that follows the first
    [time=] of a line of the output, with [ms] and [мс] removed. *)
Theorem ping_host_latency_source host timeout clock v :
  (ping_host os host timeout clock).1 = (true, Some v) ->
  v = round1 (elapsed_ms os host timeout clock) \/
  exists proc line part tok rest,
    run_result (subprocess_run os (ping_cmd os host timeout) clock) = inr proc /\
    line ∈ str_splitlines (stdout proc) /\
    PyStr.split_on "time=" (str_lower line) !! 1%nat = Some part /\
    str_split part = tok :: rest /\
    float_of_str (PyStr.replace "мс" "" (PyStr.replace "ms" "" tok)) = Some v.
Proof.
  intros Hres. destruct (ping_host_result _ _ _ _ _ Hres) as [Htry|[? _]]; [|done].
  destruct (ping_try_inr _ _ _ _ _ Htry)
    as (proc & Hrun & [(_ & ? & _)|(_ & _ & o & Hscan & Hr)]); [done|].
  injection Hr as ->. destruct o as [w|]; simpl; [|by left].
  destruct (scan_lines_some _ _ _ Hscan)
    as (before & line & after & part & tok & rest & Hl & _ & _ & Hp & Ht & Hw).
  destruct (float_of_str _) as [u|] eqn:Hf; simpl in Hw; [|by left].
  right. exists proc, line, part, tok, rest. subst w.
  repeat split; try done.
  rewrite Hl. apply elem_of_app. right. apply list_elem_of_here.
Qed.

(** X4. The first line of the output that contains [time=] decides the
    latency, whatever the lines after it say: the number [float] reads
    from the token after [time=], or the rounded elapsed time if [float]
    rejects the token. *)
Theorem ping_host_first_time_line host timeout clock proc before line after part tok rest :
  run_result (subprocess_run os (ping_cmd os host timeout) clock) = inr proc ->
  returncode proc = 0 ->
  str_splitlines (stdout proc) = before ++ line :: after ->
  Forall (fun l => PyStr.contains "time=" (str_lower l) = false) before ->
  PyStr.contains "time=" (str_lower line) = true ->
  PyStr.split_on "time=" (str_lower line) !! 1%nat = Some part ->
  str_split part = tok :: rest ->
  (ping_host os host timeout clock).1 =
  (true,
   Some (default (round1 (elapsed_ms os host timeout clock))
           (float_of_str (PyStr.replace "мс" "" (PyStr.replace "ms" "" tok))))).
Proof.
  intros Hrun Hrc Hlines Hbefore Hline Hpart Htok.
  unfold ping_host, ping_try, elapsed_ms.
  rewrite Hrun. simpl. rewrite Hrc. simpl. rewrite Hlines.
  set (e := fmul _ _).
  assert (Hscan : scan_lines e (before ++ line :: after) =
    ret (Some (default (round1 e)
      (float_of_str (PyStr.replace "мс" "" (PyStr.replace "ms" "" tok)))))).
  { clear Hlines. induction Hbefore as [|l ls Hl _ IH]; simpl.
    - rewrite Hline. unfold index. rewrite Hpart. simpl.
      rewrite Htok. simpl. by destruct (float_of_str _).
    - rewrite Hl. exact IH. }
  rewrite Hscan. reflexivity.
Qed.

End ProberMore.

(** * Further properties of a round of probes and of shutdown *)

Section SchedulerMore.
Context `{PyLib}.
Variable os : Platform.

Lemma ping_host_true_some host timeout clock r :
  (ping_host os host timeout clock).1 = (true, r) -> is_Some r.
Proof.
  intros Hres. destruct (ping_host_result _ _ _ _ _ _ Hres) as [Htry|[? _]]; [|done].
  by eapply ping_try_success.
Qed.

Lemma ping_host_false_none host timeout clock r :
  (ping_host os host timeout clock).1 = (false, r) -> r = None.
Proof.
  intros Hres. destruct (ping_host_result _ _ _ _ _ _ Hres) as [Htry|[_ ?]]; [|done].
  destruct (ping_try_inr _ _ _ _ _ _ Htry) as (proc & _ & [(_ & _ & ?)|(_ & ? & _)]);
    done.
Qed.

Lemma check_hosts_latency hs clock :
  Forall (fun p => if cb_is_up p then is_Some (cb_rtt p) else cb_rtt p = None)
    (check_hosts os hs clock).
Proof.
  revert clock. induction hs as [|x hs IH]; intros clock; [constructor|].
  rewrite check_hosts_cons. simpl. constructor; [|apply IH]. simpl.
  destruct (ping_host os (h_host x) PING_TIMEOUT clock) as [[b r] c] eqn:Hp. simpl.
  assert (Hres : (ping_host os (h_host x) PING_TIMEOUT clock).1 = (b, r))
    by (by rewrite Hp).
  destruct b; [by eapply ping_host_true_some|by eapply ping_host_false_none].
Qed.

(** X7. Every callback a round posts says up and carries a latency, or says
    down and carries none. *)
Theorem posted_latency_iff_up hs clock :
  Forall (fun p => if cb_is_up p then is_Some (cb_rtt p) else cb_rtt p = None)
    (check_hosts os hs clock).
Proof. exact (check_hosts_latency hs clock). Qed.

Lemma check_hosts_after hs clock p :
  p ∈ check_hosts os hs clock -> (clock <= post_at p)%N.
Proof.
  revert clock. induction hs as [|x hs IH]; intros clock.
  - simpl. intros Hin. by apply elem_of_nil in Hin.
  - rewrite check_hosts_cons. simpl. intros Hin.
    apply elem_of_cons in Hin. destruct Hin as [->|Hin].
    + simpl. rewrite ping_host_clock. lia.
    + apply IH in Hin. rewrite ping_host_clock in Hin. lia.
Qed.

(** X8. The callbacks of a round are posted in the order of the hosts: none
    before the round starts, and none before one that precedes it in the
    list. *)
Theorem posted_times_ordered hs clock i j p q :
  (i <= j)%nat ->
  check_hosts os hs clock !! i = Some p ->
  check_hosts os hs clock !! j = Some q ->
  (clock <= post_at p)%N /\ (post_at p <= post_at q)%N.
Proof.
  intros Hij Hp Hq. split.
  { eapply check_hosts_after, list_elem_of_lookup_2, Hp. }
  revert clock i j Hij Hp Hq. induction hs as [|x hs IH]; intros clock i j Hij; [done|].
  rewrite check_hosts_cons. destruct i as [|i]; simpl.
  - intros [= <-]. simpl. destruct j as [|j]; simpl.
    + intros [= <-]. simpl. lia.
    + intros Hq. eapply check_hosts_after, list_elem_of_lookup_2, Hq.
  - destruct j as [|j]; [lia|]. simpl. apply IH. lia.
Qed.

Lemma last_push (lst : list Sample) x : last (push lst x) = Some x.
Proof.
  unfold push. destruct (_ <? _)%nat eqn:Hlt.
  - destruct lst as [|y lst]; [done|]. simpl. rewrite drop_0. apply last_snoc.
  - apply last_snoc.
Qed.

(** X9. Running a callback that a round posted, for a host that has a row:
    the row shows OK, the latency with one decimal and the time of the
    probe, or DOWN, a dash and the time; the name stays; and the newest
    sample of the history is the latency, or [None] for a host that is
    down, at the time the callback ran. *)
Theorem dispatch_posted_row s hs clock p now row :
  p ∈ check_hosts os hs clock ->
  rows s !! cb_host p = Some row ->
  let s' := (dispatch s p now).1 in
  (exists v,
     cb_is_up p = true /\ cb_rtt p = Some v /\
     rows s' !! cb_host p =
       Some {| row_status := "OK"; row_rtt := fmt_1f v;
               row_time := cb_timestamp p; row_name := row_name row |} /\
     last (get_history s' (cb_host p)) = Some (now, Some v)) \/
  (cb_is_up p = false /\ cb_rtt p = None /\
   rows s' !! cb_host p =
     Some {| row_status := "DOWN"; row_rtt := "-";
             row_time := cb_timestamp p; row_name := row_name row |} /\
   last (get_history s' (cb_host p)) = Some (now, None)).
Proof.
  intros Hin Hrow s'.
  pose proof (check_hosts_latency hs clock) as Hall.
  rewrite Forall_forall in Hall. specialize (Hall p Hin).
  assert (Hhist : get_history s' (cb_host p) =
    push (get_history s (cb_host p)) (now, if cb_is_up p then cb_rtt p else None)).
  { destruct (update_row_present s (cb_host p) (cb_name p) (cb_is_up p) (cb_rtt p)
                (cb_timestamp p) now row Hrow) as (_ & _ & _ & Hh & _).
    subst s'. unfold dispatch.
    rewrite (get_history_insert _ _ _ _ (cb_host p) Hh). by rewrite decide_True. }
  assert (Hrows : rows s' !! cb_host p =
    Some (if cb_is_up p
          then {| row_status := "OK";
                  row_rtt := match cb_rtt p with Some r => fmt_1f r | None => "-" end;
                  row_time := cb_timestamp p; row_name := row_name row |}
          else {| row_status := "DOWN"; row_rtt := "-";
                  row_time := cb_timestamp p; row_name := row_name row |})).
  { subst s'. unfold dispatch, update_row. rewrite Hrow.
    destruct (get_prev s (cb_host p)) as [[]|]; destruct (cb_is_up p); simpl;
      by rewrite lookup_insert_eq. }
  rewrite Hhist, last_push, Hrows.
  destruct (cb_is_up p).
  - destruct Hall as [v Hv]. left. exists v. by rewrite Hv.
  - right. by rewrite Hall.
Qed.

Lemma refresh_graph_hosts_fields s :
  hosts (refresh_graph_hosts s) = hosts s /\
  _stop (refresh_graph_hosts s) = _stop s /\
  events (refresh_graph_hosts s) = events s.
Proof.
  unfold refresh_graph_hosts. destruct (graph_host_var s); [|done].
  by destruct (bool_decide _).
Qed.

Lemma build_rows_fields s :
  hosts (build_rows s) = hosts s /\
  _stop (build_rows s) = _stop s /\
  events (build_rows s) = events s.
Proof.
  unfold build_rows.
  match goal with |- context [refresh_graph_hosts ?t] =>
    destruct (refresh_graph_hosts_fields t) as (-> & -> & ->) end.
  done.
Qed.

Lemma step_stop s op : _stop (step s op) = _stop s.
Proof.
  destruct op as [c|name host sel|idx|en tok chat| |g]; simpl; try done.
  - unfold call, update_row. destruct (rows s !! c_host c); [|done].
    destruct (get_prev s (c_host c)) as [b|]; simpl; [|done].
    by destruct (negb _).
  - unfold on_save. destruct (decide _); [done|]. destruct sel as [idx|].
    + destruct (decide _); [|done].
      by destruct (build_rows_fields (set_hosts s
           (<[idx:={| h_name := if decide (name = "") then host else name;
                      h_host := host |}]> (hosts s)))) as (_ & -> & _).
    + by destruct (build_rows_fields (set_hosts s
           (hosts s ++ [{| h_name := if decide (name = "") then host else name;
                           h_host := host |}]))) as (_ & -> & _).
  - unfold on_delete. destruct (decide _); [|done].
    by destruct (build_rows_fields (set_hosts s (delete idx (hosts s))))
      as (_ & -> & _).
Qed.

Lemma exec_stop s ops : _stop (exec s ops) = _stop s.
Proof.
  revert s. unfold exec. induction ops as [|op ops IH]; intros s; simpl; [done|].
  by rewrite IH, step_stop.
Qed.

(** X10. Closing is final: whatever the main loop still runs after [on_close],
    [schedule_checks] starts no round and does not reschedule itself, and
    a second [on_close] changes nothing. *)
Theorem no_round_after_close s ops clock :
  schedule_checks os (exec (on_close s) ops) clock = None /\
  on_close (exec (on_close s) ops) = exec (on_close s) ops.
Proof.
  assert (Hstop : _stop (exec (on_close s) ops) = true).
  { rewrite exec_stop. unfold on_close. by destruct (_stop s) eqn:Hs. }
  split.
  - unfold schedule_checks. by rewrite Hstop.
  - revert Hstop. generalize (exec (on_close s) ops). intros t Hstop.
    unfold on_close. by rewrite Hstop.
Qed.

End SchedulerMore.

(** * Further properties of the state tracker *)

Section TrackerMore.
Context `{PyLib}.
Implicit Types (s : App) (c : Call) (h host name : string).

Lemma call_events_present s c :
  is_Some (rows s !! c_host c) ->
  events (call s c).1 =
  events s ++
  (if changed (get_prev s (c_host c)) (c_is_up c)
   then [event_line (c_timestamp c) (c_name c) (c_host c)
           (if c_is_up c then "UP" else "DOWN")]
   else []).
Proof.
  intros [row Hrow]. unfold call.
  by destruct (update_row_present s (c_host c) (c_name c) (c_is_up c) (c_rtt c)
                (c_timestamp c) (c_now c) row Hrow) as (_ & _ & _ & _ & ? & _).
Qed.

(** X11. The stored status of a host that has a row is the result of the
    latest callback for it, and what was stored before if the run brought
    none. *)
Theorem stored_status_is_latest s calls h :
  is_Some (rows s !! h) ->
  get_prev (run s calls).1 h =
  match last (calls_for h calls) with
  | Some c => Some (c_is_up c)
  | None => get_prev s h
  end.
Proof.
  revert s. induction calls as [|c rest IH]; intros s Hrow; simpl; [done|].
  destruct (call s c) as [s1 fx] eqn:Hcall.
  destruct (run s1 rest) as [s2 tr] eqn:Hrun. simpl.
  assert (Hs1 : s1 = (call s c).1) by (by rewrite Hcall).
  assert (Hs2 : s2 = (run s1 rest).1) by (by rewrite Hrun).
  assert (Hrow1 : is_Some (rows s1 !! h)) by (rewrite Hs1; by apply call_has_row).
  pose proof (call_prev s c h) as Hprev. rewrite <- Hs1 in Hprev.
  rewrite Hs2, (IH s1 Hrow1), Hprev.
  destruct (decide (c_host c = h)) as [Heq|Hne].
  - subst h. rewrite (bool_decide_eq_true_2 _ eq_refl). simpl.
    rewrite decide_True by done. destruct Hrow as [row ->].
    rewrite last_cons. by destruct (last _).
  - rewrite (bool_decide_eq_false_2 _ Hne). by rewrite decide_False.
Qed.

(** X12. A callback for one host leaves the row, the stored status and the
    history of every other host as they were. *)
Theorem callback_touches_one_host s c h :
  c_host c <> h ->
  rows (call s c).1 !! h = rows s !! h /\
  get_prev (call s c).1 h = get_prev s h /\
  get_history (call s c).1 h = get_history s h.
Proof.
  intros Hne. split; [|split].
  - unfold call, update_row. destruct (rows s !! c_host c) as [row|]; [|done].
    destruct (get_prev s (c_host c)) as [[]|]; destruct (c_is_up c); simpl;
      by rewrite lookup_insert_ne.
  - rewrite call_prev. by rewrite decide_False.
  - rewrite call_history. by rewrite decide_False.
Qed.

(** X13. Over the callbacks of one host that has a row, the event log grows by
    exactly one line for each result that differs from the result before
    it, in the order of the callbacks, each line with the time, name and
    new status of its callback. *)
Theorem events_are_the_status_changes s calls h :
  is_Some (rows s !! h) ->
  Forall (fun c => c_host c = h) calls ->
  events (run s calls).1 = events s ++ transitions (get_prev s h) calls.
Proof.
  intros Hrow Hall. revert s Hrow.
  induction Hall as [|c rest Hc _ IH]; intros s Hrow; simpl.
  { by rewrite app_nil_r. }
  destruct (call s c) as [s1 fx] eqn:Hcall.
  destruct (run s1 rest) as [s2 tr] eqn:Hrun. simpl.
  assert (Hs1 : s1 = (call s c).1) by (by rewrite Hcall).
  assert (Hs2 : s2 = (run s1 rest).1) by (by rewrite Hrun).
  assert (Hrow1 : is_Some (rows s1 !! h)) by (rewrite Hs1; by apply call_has_row).
  rewrite Hs2, (IH s1 Hrow1).
  assert (Hev : events s1 = events s ++
    (if changed (get_prev s h) (c_is_up c)
     then [event_line (c_timestamp c) (c_name c) (c_host c)
             (if c_is_up c then "UP" else "DOWN")]
     else [])).
  { rewrite Hs1, call_events_present by (by rewrite Hc). by rewrite Hc. }
  assert (Hprev : get_prev s1 h = Some (c_is_up c)).
  { rewrite Hs1, call_prev, decide_True by done. by destruct Hrow as [row ->]. }
  by rewrite Hev, Hprev, <- app_assoc.
Qed.

(** X14. Callbacks only ever append to the event log, at most one line each:
    no earlier line is removed or rewritten. *)
Theorem events_only_grow s calls :
  exists added,
    events (run s calls).1 = events s ++ added /\
    (length added <= length calls)%nat.
Proof.
  revert s. induction calls as [|c rest IH]; intros s; simpl.
  { exists []. by rewrite app_nil_r. }
  destruct (call s c) as [s1 fx] eqn:Hcall.
  destruct (run s1 rest) as [s2 tr] eqn:Hrun. simpl.
  assert (Hs1 : s1 = (call s c).1) by (by rewrite Hcall).
  assert (Hs2 : s2 = (run s1 rest).1) by (by rewrite Hrun).
  destruct (IH s1) as (added & Hadd & Hlen). rewrite <- Hs2 in Hadd.
  assert (Hone : exists one, events s1 = events s ++ one /\ (length one <= 1)%nat).
  { destruct (rows s !! c_host c) as [row|] eqn:Hrow.
    - eexists. split.
      + rewrite Hs1. apply call_events_present. by rewrite Hrow.
      + destruct (changed _ _); simpl; lia.
    - exists []. rewrite Hs1. unfold call.
      rewrite update_row_absent by done. simpl. rewrite app_nil_r. split; [done|lia]. }
  destruct Hone as (one & Hone & Hlen1).
  exists (one ++ added). rewrite Hadd, Hone, app_assoc. split; [done|].
  rewrite length_app. lia.
Qed.

Lemma call_no_telegram s c :
  telegram_ready s = false ->
  Forall (fun e => is_telegram e = false) (call s c).2.
Proof.
  intros Hready. unfold call, update_row.
  destruct (rows s !! c_host c) as [row|]; [|constructor]. simpl.
  set (s2 := match get_prev s (c_host c) with Some _ => _ | None => _ end).
  assert (Hready2 : telegram_ready s2 = false).
  { subst s2. destruct (get_prev s (c_host c)) as [b|]; [|done].
    by destruct (negb _). }
  apply Forall_app. split.
  - destruct (decide _); by repeat constructor.
  - assert (Hnone : send_telegram_alert s2 (c_name c) (c_host c) = []).
    { unfold send_telegram_alert. unfold telegram_ready in Hready2.
      destruct (telegram_enabled s2); simpl in *; [|done].
      destruct (decide _) as [|Hn]; [done|].
      by rewrite (bool_decide_eq_false_2 _ Hn) in Hready2. }
    rewrite Hnone.
    destruct (get_prev s (c_host c)) as [[]|]; destruct (c_is_up c);
      by repeat constructor.
Qed.

(** X15. With Telegram switched off, or with an empty bot token or chat id, no
    run of callbacks ever starts a Telegram thread, whatever the hosts do. *)
Theorem no_telegram_unless_configured s calls :
  telegram_ready s = false ->
  Forall (fun x => is_telegram x.2 = false) (run s calls).2.
Proof.
  revert s. induction calls as [|c rest IH]; intros s Hready; simpl; [constructor|].
  destruct (call s c) as [s1 fx] eqn:Hcall.
  destruct (run s1 rest) as [s2 tr] eqn:Hrun. simpl.
  assert (Hs1 : s1 = (call s c).1) by (by rewrite Hcall).
  assert (Hfx : fx = (call s c).2) by (by rewrite Hcall).
  assert (Hready1 : telegram_ready s1 = false)
    by (by rewrite Hs1, call_telegram_ready).
  specialize (IH s1 Hready1). rewrite Hrun in IH. simpl in IH.
  apply Forall_app. split; [|done].
  rewrite Hfx. apply Forall_fmap.
  eapply Forall_impl; [by apply call_no_telegram|]. done.
Qed.

(** *** Editing the host list *)

Lemma dict_of_lookup_value {V} (value : Host -> V) hs k :
  (k ∉ h_host <$> hs -> dict_of value hs !! k = None) /\
  (k ∈ h_host <$> hs ->
   exists x, x ∈ hs /\ h_host x = k /\ dict_of value hs !! k = Some (value x)).
Proof.
  unfold dict_of.
  assert (Hgen : forall m : gmap string V,
    (k ∉ h_host <$> hs ->
     foldl (fun m x => <[h_host x := value x]> m) m hs !! k = m !! k) /\
    (k ∈ h_host <$> hs ->
     exists x, x ∈ hs /\ h_host x = k /\
       foldl (fun m x => <[h_host x := value x]> m) m hs !! k = Some (value x))).
  { induction hs as [|x hs IH]; intros m.
    - split; [done|]. intros Hin. by apply elem_of_nil in Hin.
    - specialize (IH (<[h_host x := value x]> m)). destruct IH as [IHn IHy].
      simpl. split.
      + intros Hnin. apply not_elem_of_cons in Hnin. destruct Hnin as [Hne Hnin].
        rewrite IHn by done. by rewrite lookup_insert_ne.
      + intros Hin. destruct (decide (k ∈ h_host <$> hs)) as [Hk|Hk].
        * destruct (IHy Hk) as (y & Hy & Hyk & Hl).
          exists y. split; [by apply list_elem_of_further|]. done.
        * apply elem_of_cons in Hin. destruct Hin as [->|Hin]; [|done].
          exists x. split; [apply list_elem_of_here|]. split; [done|].
          rewrite IHn by done. by rewrite lookup_insert_eq. }
  destruct (Hgen ∅) as [Hn Hy]. split; [|done].
  intros Hk. rewrite Hn by done. apply lookup_empty.
Qed.

Lemma build_rows_prev s h :
  get_prev (build_rows s) h =
  if decide (h ∈ h_host <$> hosts s) then get_prev s h else None.
Proof.
  unfold build_rows.
  match goal with |- context [refresh_graph_hosts ?t] =>
    destruct (refresh_graph_hosts_tables t) as (_ & Hp & _) end.
  unfold get_prev at 1. rewrite Hp. simpl.
  rewrite (dict_of_lookup (get_prev s)). by destruct (decide _).
Qed.

Lemma build_rows_history s h :
  get_history (build_rows s) h =
  if decide (h ∈ h_host <$> hosts s) then get_history s h else [].
Proof.
  unfold build_rows.
  match goal with |- context [refresh_graph_hosts ?t] =>
    destruct (refresh_graph_hosts_tables t) as (_ & _ & Hh) end.
  unfold get_history at 1. rewrite Hh. simpl.
  rewrite (dict_of_lookup (get_history s)). by destruct (decide _).
Qed.

Lemma build_rows_rows s :
  rows (build_rows s) = dict_of (fun x => fresh_row (h_name x)) (hosts s).
Proof.
  unfold build_rows.
  match goal with |- context [refresh_graph_hosts ?t] =>
    destruct (refresh_graph_hosts_tables t) as (Hr & _ & _) end.
  by rewrite Hr.
Qed.

Lemma build_rows_lookup s h :
  (h ∈ h_host <$> hosts s ->
   get_prev (build_rows s) h = get_prev s h /\
   get_history (build_rows s) h = get_history s h /\
   exists x, x ∈ hosts s /\ h_host x = h /\
     rows (build_rows s) !! h = Some (fresh_row (h_name x))) /\
  (h ∉ h_host <$> hosts s ->
   get_prev (build_rows s) h = None /\
   get_history (build_rows s) h = [] /\
   rows (build_rows s) !! h = None).
Proof.
  rewrite build_rows_prev, build_rows_history, build_rows_rows.
  destruct (dict_of_lookup_value (fun x => fresh_row (h_name x)) (hosts s) h)
    as [Hn Hy].
  split; intros Hin.
  - rewrite !decide_True by done. repeat split. by apply Hy.
  - rewrite !decide_False by done. repeat split. by apply Hn.
Qed.

(** X16. Rebuilding the table keeps the stored status and the history of every
    host that is still configured, forgets those of every other host, and
    gives each configured host a fresh row that shows no result yet. *)
Theorem build_rows_keeps_configured s h :
  (h ∈ h_host <$> hosts s ->
   get_prev (build_rows s) h = get_prev s h /\
   get_history (build_rows s) h = get_history s h /\
   exists x, x ∈ hosts s /\ h_host x = h /\
     rows (build_rows s) !! h = Some (fresh_row (h_name x))) /\
  (h ∉ h_host <$> hosts s ->
   get_prev (build_rows s) h = None /\
   get_history (build_rows s) h = [] /\
   rows (build_rows s) !! h = None).
Proof. exact (build_rows_lookup s h). Qed.

(** X17. After a host has been deleted from the list, and no other entry names
    it, nothing is stored for it any more, and a result of a probe that was
    still under way changes nothing and raises no alert. *)
Theorem deleted_host_result_dropped s idx x c :
  hosts s !! idx = Some x ->
  h_host x ∉ h_host <$> delete idx (hosts s) ->
  c_host c = h_host x ->
  call (on_delete s idx) c = (on_delete s idx, []) /\
  get_prev (on_delete s idx) (h_host x) = None /\
  get_history (on_delete s idx) (h_host x) = [].
Proof.
  intros Hx Hgone Hc. unfold on_delete.
  rewrite decide_True by (by eapply lookup_lt_Some).
  destruct (build_rows_lookup (set_hosts s (delete idx (hosts s)))
              (h_host x)) as [_ Hout].
  destruct (Hout Hgone) as (Hp & Hh & Hr).
  split; [|done]. unfold call. rewrite Hc. by apply update_row_absent.
Qed.

(** X18. The host dialog refuses an empty host. Otherwise, with no entry
    selected, it appends one entry, named after the host if the name is
    empty; the host has a row afterwards; and every host of the new list
    keeps the status and the history that were stored for it. *)
Theorem on_save_appends_host s name host h :
  let entry :=
    {| h_name := if decide (name = "") then host else name; h_host := host |} in
  (host = "" -> on_save s name host None = s) /\
  (host <> "" ->
   hosts (on_save s name host None) = hosts s ++ [entry] /\
   valid_host entry /\
   is_Some (rows (on_save s name host None) !! host) /\
   (h ∈ h_host <$> hosts s ++ [entry] ->
    get_prev (on_save s name host None) h = get_prev s h /\
    get_history (on_save s name host None) h = get_history s h)).
Proof.
  intros entry. unfold on_save. split.
  - intros ->. by rewrite decide_True.
  - intros Hne. rewrite decide_False by done. fold entry.
    set (t := set_hosts s (hosts s ++ [entry])).
    destruct (build_rows_fields t) as (Hhosts & _).
    split; [done|]. split.
    { split; [done|]. subst entry. simpl. by destruct (decide (name = "")). }
    assert (Hin : host ∈ h_host <$> hosts t).
    { subst t. simpl. rewrite fmap_app. apply elem_of_app. right.
      apply list_elem_of_here. }
    split.
    + destruct (build_rows_lookup t host) as [Hy _].
      destruct (Hy Hin) as (_ & _ & y & _ & _ & ->). eauto.
    + intros Hh. destruct (build_rows_lookup t h) as [Hy _].
      destruct (Hy Hh) as (Hp & Hhist & _). done.
Qed.

Lemma step_hosts_valid s op :
  Forall valid_host (hosts s) -> Forall valid_host (hosts (step s op)).
Proof.
  intros Hv. destruct op as [c|name host sel|idx|en tok chat| |g]; simpl; try done.
  - unfold call. destruct (rows s !! c_host c) as [row|] eqn:Hrow.
    + by destruct (update_row_present s (c_host c) (c_name c) (c_is_up c) (c_rtt c)
                (c_timestamp c) (c_now c) row Hrow) as (-> & _).
    + by rewrite update_row_absent.
  - unfold on_save. destruct (decide (host = "")) as [|Hne]; [done|].
    assert (Hentry : valid_host
      {| h_name := if decide (name = "") then host else name; h_host := host |}).
    { split; [done|]. simpl. by destruct (decide (name = "")). }
    destruct sel as [idx|].
    + destruct (decide (idx < length (hosts s))%nat); [|done].
      match goal with |- context [build_rows ?t] =>
        destruct (build_rows_fields t) as (-> & _) end.
      simpl. by apply Forall_insert.
    + match goal with |- context [build_rows ?t] =>
        destruct (build_rows_fields t) as (-> & _) end.
      simpl. apply Forall_app. split; [done|]. by constructor.
  - unfold on_delete. destruct (decide _); [|done].
    match goal with |- context [build_rows ?t] =>
      destruct (build_rows_fields t) as (-> & _) end.
    simpl. by apply Forall_delete.
Qed.

Lemma exec_hosts_valid s ops :
  Forall valid_host (hosts s) -> Forall valid_host (hosts (exec s ops)).
Proof.
  revert s. unfold exec. induction ops as [|op ops IH]; intros s Hv; simpl; [done|].
  apply IH. by apply step_hosts_valid.
Qed.

(** X19. If every entry of the host list has a non-empty host and a non-empty
    name, this stays so whatever callbacks run and whatever the dialogs
    save or delete. *)
Theorem hosts_stay_valid s ops :
  Forall valid_host (hosts s) -> Forall valid_host (hosts (exec s ops)).
Proof. exact (exec_hosts_valid s ops). Qed.

(** X20. After the table is rebuilt, the host selected for the graph is a
    configured host, or the empty string when no host is configured; a
    selection that is still configured is kept. *)
Theorem build_rows_graph_selection s old :
  graph_host_var s = Some old ->
  exists cur,
    graph_host_var (build_rows s) = Some cur /\
    (old ∈ h_host <$> hosts s -> cur = old) /\
    (cur ∈ h_host <$> hosts s \/ (hosts s = [] /\ cur = "")).
Proof.
  intros Hold. unfold build_rows, refresh_graph_hosts. simpl. rewrite Hold.
  destruct (bool_decide (old ∈ h_host <$> hosts s)) eqn:Hin.
  - apply bool_decide_eq_true_1 in Hin. exists old. simpl. eauto.
  - apply bool_decide_eq_false_1 in Hin. simpl.
    eexists. split; [reflexivity|]. split; [done|].
    destruct (hosts s) as [|x hs]; simpl; [by right|].
    left. apply list_elem_of_here.
Qed.


Lemma init_hosts cfg enabled token chat_id :
  hosts (init cfg enabled token chat_id) = cfg.
Proof.
  unfold init.
  set (s0 := {| hosts := cfg; rows := ∅ |}).
  set (t := set_graph_host (build_rows s0) (Some "")).
  destruct (refresh_graph_hosts_fields t) as (Ht & _).
  destruct (build_rows_fields s0) as (Hs0 & _).
  rewrite Ht. exact Hs0.
Qed.

(** X22. When [__init__] is through, nothing is known yet: every host has an
    unknown status and an empty history, the event log is empty, the
    application is not stopped, and exactly the configured hosts have a
    row, which shows no result. *)
Theorem init_all_unknown cfg enabled token chat_id h :
  let s := init cfg enabled token chat_id in
  get_prev s h = None /\
  get_history s h = [] /\
  events s = [] /\
  _stop s = false /\
  hosts s = cfg /\
  (is_Some (rows s !! h) <-> h ∈ h_host <$> cfg) /\
  (forall row, rows s !! h = Some row ->
     row_status row = "..." /\ row_rtt row = "-" /\ row_time row = "-").
Proof.
  intros s. subst s. unfold init.
  set (s0 := {| hosts := cfg; rows := ∅ |}).
  set (t := set_graph_host (build_rows s0) (Some "")).
  destruct (refresh_graph_hosts_tables t) as (Hr & Hp & Hh).
  destruct (refresh_graph_hosts_fields t) as (Hhosts & Hstop & Hev).
  destruct (build_rows_fields s0) as (Hhosts0 & Hstop0 & Hev0).
  assert (Hprev0 : get_prev s0 h = None).
  { unfold get_prev, s0. simpl. rewrite (dict_of_lookup (fun _ => None)).
    by destruct (decide _). }
  assert (Hhist0 : get_history s0 h = []).
  { unfold get_history, s0. simpl. rewrite (dict_of_lookup (fun _ => [])).
    by destruct (decide _). }
  split.
  { transitivity (get_prev (build_rows s0) h);
      [unfold get_prev; by rewrite Hp|].
    rewrite build_rows_prev, Hprev0. by destruct (decide _). }
  split.
  { transitivity (get_history (build_rows s0) h);
      [unfold get_history; by rewrite Hh|].
    rewrite build_rows_history, Hhist0. by destruct (decide _). }
  split; [rewrite Hev; exact Hev0|].
  split; [rewrite Hstop; exact Hstop0|].
  split; [rewrite Hhosts; exact Hhosts0|].
  rewrite Hr.
  change (rows t) with (rows (build_rows s0)). rewrite build_rows_rows.
  destruct (dict_of_lookup_value (fun x => fresh_row (h_name x)) (hosts s0) h)
    as [Hn Hy].
  split.
  - split.
    + intros [row Hrow]. destruct (decide (h ∈ h_host <$> hosts s0)) as [|Hout];
        [done|]. rewrite (Hn Hout) in Hrow. done.
    + intros Hin. destruct (Hy Hin) as (x & _ & _ & ->). eauto.
  - intros row Hrow. destruct (decide (h ∈ h_host <$> hosts s0)) as [Hin|Hout].
    + destruct (Hy Hin) as (x & _ & _ & Hx). rewrite Hx in Hrow.
      by injection Hrow as <-.
    + rewrite (Hn Hout) in Hrow. done.
Qed.

End TrackerMore.

(** * Properties of the settings file *)

Section SettingsFacts.
Context `{PyData} `{PyLib}.

Lemma get_is_dict (x : Json Number) k dflt :
  (is_dict x = true -> is_Some (get x k dflt)) /\
  (is_dict x = false -> get x k dflt = None).
Proof. destruct x; simpl; split; try done; eauto. Qed.

Lemma clean_hosts_valid hs cleaned :
  clean_hosts hs = Some cleaned -> Forall valid_host cleaned.
Proof.
  revert cleaned. induction hs as [|h hs IH]; intros cleaned; simpl.
  { intros [= <-]. constructor. }
  destruct (get h "name" (JStr "")) as [name|]; simpl; [|done].
  destruct (get h "host" (JStr "")) as [host|]; simpl; [|done].
  destruct (clean_hosts hs) as [rest|]; simpl; [|done].
  specialize (IH rest eq_refl).
  destruct (decide (str_strip (py_str host) = "")) as [|Hne].
  - by intros [= <-].
  - intros [= <-]. constructor; [|done]. split; [done|]. simpl.
    by destruct (decide (str_strip (py_str name) = "")).
Qed.

Lemma default_hosts_valid : Forall valid_host DEFAULT_HOSTS.
Proof. repeat constructor; discriminate. Qed.

Lemma load_settings_valid_aux file st :
  load_settings file = Some st ->
  st_hosts st <> [] /\ Forall valid_host (st_hosts st).
Proof.
  assert (Hdef : DEFAULT_HOSTS <> [] /\ Forall valid_host DEFAULT_HOSTS)
    by (split; [done|apply default_hosts_valid]).
  destruct file as [| |data]; simpl; try (by intros [= <-]).
  destruct (get data "hosts" JNull) as [hosts|]; simpl; [|done].
  assert (Hhs : forall hs,
    match hosts with
    | JList (x :: l) =>
        cleaned ← clean_hosts (x :: l);
        Some (match cleaned with [] => DEFAULT_HOSTS | _ => cleaned end)
    | _ => Some DEFAULT_HOSTS
    end = Some hs -> hs <> [] /\ Forall valid_host hs).
  { intros hs. destruct hosts as [| | | |[|x l]|]; try (by intros [= <-]).
    destruct (clean_hosts (x :: l)) as [cleaned|] eqn:Hc; simpl; [|done].
    apply clean_hosts_valid in Hc.
    destruct cleaned as [|y cleaned]; intros [= <-]; done. }
  destruct (match hosts with JList (x :: l) => _ | _ => _ end) as [hs|];
    simpl; [|done].
  specialize (Hhs hs eq_refl).
  destruct (get data "telegram" (JDict [])) as [tg|]; simpl; [|done].
  destruct (get tg "enabled" (JBool false)); simpl; [|done].
  destruct (get tg "bot_token" (JStr "")); simpl; [|done].
  destruct (get tg "chat_id" (JStr "")); simpl; [|done].
  by intros [= <-].
Qed.

(** X23. Whatever the settings file holds, if [load_settings] returns, the
    host list it leaves is not empty and every entry has a non-empty host
    and a non-empty name. *)
Theorem load_settings_hosts_valid file st :
  load_settings file = Some st ->
  st_hosts st <> [] /\ Forall valid_host (st_hosts st).
Proof. exact (load_settings_valid_aux file st). Qed.

Lemma clean_hosts_saved (hs : list Host) :
  Forall (fun h => valid_host h /\
                   str_strip (h_host h) = h_host h /\
                   str_strip (h_name h) = h_name h) hs ->
  clean_hosts (host_json <$> hs) = Some hs.
Proof.
  induction 1 as [|[name host] hs ([Hh Hn] & Hsh & Hsn) _ IH]; [done|].
  simpl in Hh, Hn, Hsh, Hsn. rewrite fmap_cons.
  cbn [clean_hosts host_json get dict_get List.find fst snd].
  rewrite IH. simpl. rewrite Hsh, Hsn.
  by rewrite !decide_False.
Qed.

(** Settles the comparisons of dict keys that are string literals. *)
Ltac decide_keys :=
  repeat match goal with
  | |- context [bool_decide (?a = ?b)] =>
      first [ rewrite (bool_decide_eq_true_2 (a = b) eq_refl)
            | rewrite (bool_decide_eq_false_2 (a = b)) by discriminate ]
  end.

Lemma token_round_trip (t : string) : py_str (or_empty (JStr t)) = t.
Proof.
  unfold or_empty. simpl. destruct (decide (t = "")) as [->|Hne].
  - done.
  - by rewrite (bool_decide_eq_false_2 _ Hne).
Qed.

(** X24. What [save_settings] writes, [load_settings] reads back: the same host
    list, in the same order, and the same Telegram settings, provided the
    list is not empty and its names and hosts are non-empty and free of
    surrounding white space, as the dialogs and [load_settings] leave
    them. *)
Theorem settings_round_trip s file :
  hosts s <> [] ->
  Forall (fun h => valid_host h /\
                   str_strip (h_host h) = h_host h /\
                   str_strip (h_name h) = h_name h) (hosts s) ->
  load_settings (save_settings s Written file) =
  Some {| st_hosts := hosts s;
          st_enabled := telegram_enabled s;
          st_token := telegram_bot_token s;
          st_chat_id := telegram_chat_id s |}.
Proof.
  intros Hne Hall. apply clean_hosts_saved in Hall.
  unfold save_settings, load_settings, settings_data, get, dict_get.
  remember (host_json <$> hosts s) as js eqn:Hjs.
  cbn -[clean_hosts or_empty py_str].
  destruct js as [|j js].
  { destruct (hosts s); done. }
  decide_keys.
  cbn -[clean_hosts or_empty py_str]. rewrite Hall.
  decide_keys.
  cbn -[or_empty py_str]. rewrite !token_round_trip.
  destruct (hosts s); done.
Qed.

(** X25. An empty host list does not survive a restart: [save_settings] writes
    it, and [load_settings] puts [DEFAULT_HOSTS] in its place. *)
Theorem empty_host_list_reverts_to_defaults s file :
  hosts s = [] ->
  load_settings (save_settings s Written file) =
  Some {| st_hosts := DEFAULT_HOSTS;
          st_enabled := telegram_enabled s;
          st_token := telegram_bot_token s;
          st_chat_id := telegram_chat_id s |}.
Proof.
  intros Hnil.
  unfold save_settings, load_settings, settings_data, get, dict_get.
  rewrite Hnil.
  repeat (progress (decide_keys; cbn -[or_empty py_str])).
  by rewrite !token_round_trip.
Qed.

Lemma clean_hosts_none_iff hs :
  clean_hosts hs = None <-> Exists (fun h => is_dict h = false) hs.
Proof.
  induction hs as [|h hs IH]; simpl.
  { split; [done|]. intros Hex. by apply Exists_nil in Hex. }
  rewrite Exists_cons, <- IH.
  destruct h as [| | | | |d]; simpl; try (split; [by left|done]).
  destruct (clean_hosts hs) as [rest|]; simpl.
  - split; [done|]. intros [|]; done.
  - split; [by right|done].
Qed.

(** X26. [load_settings] raises, and the application does not start, exactly
    when the file holds JSON of the wrong shape: the top level is not an
    object, or [hosts] is a non-empty list with an entry that is not an
    object, or [telegram] is not an object. *)
Theorem load_settings_raises_iff data :
  load_settings (Parsed data) = None <->
  is_dict data = false \/
  (exists x l, get data "hosts" JNull = Some (JList (x :: l)) /\
               Exists (fun h => is_dict h = false) (x :: l)) \/
  (exists tg, get data "telegram" (JDict []) = Some tg /\ is_dict tg = false).
Proof.
  destruct data as [| | | | |d];
    try (simpl; split; [by left|done]).
  cbn -[clean_hosts].
  set (hostsv := default JNull (dict_get d "hosts")).
  set (tgv := default (JDict []) (dict_get d "telegram")).
  assert (Htg : forall hs,
    (enabled ← get tgv "enabled" (JBool false);
     token ← get tgv "bot_token" (JStr "");
     chat_id ← get tgv "chat_id" (JStr "");
     Some {| st_hosts := hs; st_enabled := truthy enabled;
             st_token := py_str (or_empty token);
             st_chat_id := py_str (or_empty chat_id) |}) = None <->
    is_dict tgv = false).
  { intros hs. destruct tgv; simpl; done. }
  split.
  - intros Hnone.
    destruct hostsv as [| | | |[|x l]|] eqn:Hhv; cbn -[clean_hosts] in Hnone;
      try (right; right; exists tgv; split; [done|]; by apply (Htg DEFAULT_HOSTS)).
    destruct (clean_hosts (x :: l)) as [cleaned|] eqn:Hc; cbn in Hnone.
    + right; right. exists tgv. split; [done|]. by eapply Htg.
    + right; left. exists x, l. split; [done|]. by apply clean_hosts_none_iff.
  - intros [Hd|[(x & l & [= Hhv] & Hex)|(tg & [= Htgv] & Hnd)]]; [done| |].
    + rewrite Hhv. cbn -[clean_hosts]. apply clean_hosts_none_iff in Hex.
      by rewrite Hex.
    + destruct (match hostsv with JList (x :: l) => _ | _ => _ end) as [hs|];
        simpl; [|done].
      apply Htg. by rewrite Htgv.
Qed.

(** X27. If the application starts, from whatever settings file, its host list
    is not empty at the start, and after any callbacks and edits every
    entry still has a non-empty host and name, the three tables are keyed
    by the same hosts, and no history holds more than [MAX_RTT_POINTS]
    samples. *)
Theorem startup_invariants file s ops :
  startup file = Some s ->
  hosts s <> [] /\
  Forall valid_host (hosts (exec s ops)) /\
  consistent (exec s ops) /\
  bounded (exec s ops).
Proof.
  unfold startup. destruct (load_settings file) as [st|] eqn:Hload; simpl; [|done].
  intros [= <-]. destruct (load_settings_valid_aux file st Hload) as [Hne Hv].
  pose proof (init_hosts (st_hosts st) (st_enabled st) (st_token st)
                (st_chat_id st)) as Hhosts.
  split; [by rewrite Hhosts|]. split.
  - apply exec_hosts_valid. by rewrite Hhosts.
  - apply exec_invariants, init_invariants.
Qed.

End SettingsFacts.

(** * The properties on the installation [Lab] *)

#[local] Existing Instance Decimal.lib.

Lemma ping_host_error_is_down_witness :
  probe_error Lab.no_ping_os Lab.dns PING_TIMEOUT 0 /\
  (ping_host Lab.no_ping_os Lab.dns PING_TIMEOUT 0).1 = (false, None).
Proof.
  assert (Herr : probe_error Lab.no_ping_os Lab.dns PING_TIMEOUT 0).
  { left. exists FileNotFoundError. reflexivity. }
  split; [exact Herr|]. exact (ping_host_error_is_down _ _ _ _ Herr).
Defined.

Lemma ping_host_up_has_latency_witness :
  (ping_host (fixed_os 0 linux_reply 15) Lab.dns PING_TIMEOUT 0).1 =
    (true, Some (123 # 10)%Q) /\
  exists v : Q, Some (123 # 10)%Q = Some v.
Proof.
  assert (Hup : (ping_host (fixed_os 0 linux_reply 15) Lab.dns PING_TIMEOUT 0).1 =
                (true, Some (123 # 10)%Q)) by (vm_compute; reflexivity).
  split; [exact Hup|]. exact (ping_host_up_has_latency _ _ _ _ _ Hup).
Defined.

(** C7 as stated fails: a [ping] that takes ten seconds keeps [ping_host]
    for ten seconds, with a budget of two. *)
Lemma slow_ping_exceeds_budget :
  (ping_host Lab.slow_os Lab.dns PING_TIMEOUT 0).2 = 10000%N /\
  ~ within_budget.
Proof.
  split; [vm_compute; reflexivity|].
  intros Hb. specialize (Hb Lab.slow_os Lab.dns PING_TIMEOUT 0%N).
  vm_compute in Hb. apply Hb. reflexivity.
Qed.

(** C8 on a reply cut after [time=]: the process exits with status 0, no
    latency can be read, and [ping_host] reports the host down instead of
    up with the elapsed time. *)
Theorem cut_reply_reported_down :
  run_result (subprocess_run Lab.cut_os (ping_cmd Lab.cut_os Lab.dns PING_TIMEOUT) 0%N) =
    inr {| returncode := 0; stdout := Lab.cut_reply |} /\
  (ping_host Lab.cut_os Lab.dns PING_TIMEOUT 0).1 = (false, None) /\
  ~ success_is_up Lab.cut_os Lab.dns PING_TIMEOUT 0.
Proof.
  split; [reflexivity|]. split; [vm_compute; reflexivity|].
  intros Hs. destruct (Hs _ eq_refl eq_refl) as [v Hv].
  vm_compute in Hv. discriminate.
Qed.

(** C5 as stated fails: with the first host slow, the result of the second
    is posted three seconds later than with the first host fast, although
    the probe of the second behaves the same. *)
Lemma slow_probe_delays_next :
  posted_at (check_hosts (Lab.first_takes 10) Lab.hosts_cfg 0) Lab.router = Some 20%N /\
  posted_at (check_hosts (Lab.first_takes 3000) Lab.hosts_cfg 0) Lab.router = Some 3010%N /\
  ~ probes_independent.
Proof.
  split; [vm_compute; reflexivity|]. split; [vm_compute; reflexivity|].
  intros Hi.
  specialize (Hi (Lab.first_takes 10) (Lab.first_takes 3000) Lab.hosts_cfg 0%N
                 Lab.router eq_refl (fun _ => eq_refl)).
  vm_compute in Hi. discriminate.
Qed.

(** The results up, up, down, down, up of one host leave two events, for
    the third and the fifth. *)
Example flapping_events :
  events (run Lab.start Lab.flapping).1 =
  [ "[00:00:10] Google DNS (8.8.8.8): DOWN";
    "[00:00:20] Google DNS (8.8.8.8): UP" ].
Proof. vm_compute. reflexivity. Qed.

Lemma update_row_event_iff_witness :
  let s := (run Lab.start [Lab.probe Lab.dns true 0]).1 in
  consistent s /\
  events (update_row s Lab.dns "Google DNS" false None "00:00:05" 5000).1 =
  events s ++ [event_line "00:00:05" "Google DNS" Lab.dns "DOWN"].
Proof.
  intros s.
  assert (Hc : consistent s) by (split; vm_compute; reflexivity).
  split; [exact Hc|].
  pose proof (update_row_event_iff s Lab.dns "Google DNS" false None "00:00:05"
                5000%N Hc) as Hw.
  cbv zeta in Hw. destruct Hw as (Hiff & _).
  apply Hiff. exists true. split; [vm_compute; reflexivity|discriminate].
Defined.

Lemma alert_once_per_down_edge_witness :
  is_Some (rows Lab.start !! Lab.dns) /\
  count_for Lab.dns is_dialog (run Lab.start Lab.flapping).2 = 1%nat /\
  count_for Lab.dns is_telegram (run Lab.start Lab.flapping).2 = 1%nat.
Proof.
  assert (Hrow : is_Some (rows Lab.start !! Lab.dns))
    by (eexists; vm_compute; reflexivity).
  split; [exact Hrow|].
  pose proof (alert_once_per_down_edge Lab.start Lab.flapping Lab.dns Hrow) as Hw.
  cbv zeta in Hw. destruct Hw as [Hd Ht].
  split.
  - etransitivity; [exact Hd|]. vm_compute. reflexivity.
  - etransitivity; [exact Ht|]. vm_compute. reflexivity.
Defined.

Lemma history_never_exceeds_capacity_witness :
  let s := exec (init Lab.hosts_cfg true "123:abc" "42")
             (OpUpdateRow <$> Lab.burst Lab.dns 200) in
  let c := Lab.probe Lab.dns false 1000000 in
  c_host c = Lab.dns /\
  length (get_history s Lab.dns) = MAX_RTT_POINTS /\
  get_history (call s c).1 Lab.dns = drop 1 (get_history s Lab.dns) ++ [sample_of c] /\
  length (get_history (call s c).1 Lab.dns) = MAX_RTT_POINTS.
Proof.
  intros s c.
  pose proof (history_never_exceeds_capacity Lab.hosts_cfg true "123:abc" "42"
                (OpUpdateRow <$> Lab.burst Lab.dns 200) Lab.dns c) as Hw.
  cbv zeta in Hw. destruct Hw as (_ & _ & Hevict).
  assert (Hhost : c_host c = Lab.dns) by reflexivity.
  assert (Hfull : length (get_history s Lab.dns) = MAX_RTT_POINTS)
    by (vm_compute; reflexivity).
  split; [exact Hhost|]. split; [exact Hfull|]. exact (Hevict Hhost Hfull).
Defined.

Lemma history_round_trip_witness :
  is_Some (rows Lab.start !! Lab.dns) /\
  Lab.dns <> "" /\
  get_history Lab.start Lab.dns = [] /\
  (length (calls_for Lab.dns Lab.flapping) <= MAX_RTT_POINTS)%nat /\
  get_history (run Lab.start Lab.flapping).1 Lab.dns =
    sample_of <$> calls_for Lab.dns Lab.flapping /\
  plot_ys (update_graph (set_graph_host (run Lab.start Lab.flapping).1 (Some Lab.dns))) =
    [Some (123 # 10)%Q; Some (123 # 10)%Q; None; None; Some (123 # 10)%Q].
Proof.
  assert (Hrow : is_Some (rows Lab.start !! Lab.dns))
    by (eexists; vm_compute; reflexivity).
  assert (Hne : Lab.dns <> "") by discriminate.
  assert (Hempty : get_history Lab.start Lab.dns = []) by (vm_compute; reflexivity).
  assert (Hlen : (length (calls_for Lab.dns Lab.flapping) <= MAX_RTT_POINTS)%nat)
    by (vm_compute; lia).
  pose proof (history_round_trip Lab.start Lab.flapping Lab.dns Hrow Hne Hempty Hlen)
    as Hw.
  cbv zeta in Hw. destruct Hw as (Hhist & Hys & _).
  repeat (split; [assumption|]).
  etransitivity; [exact Hys|]. vm_compute. reflexivity.
Defined.

Lemma probes_run_in_sequence_witness :
  let posted := check_hosts (Lab.first_takes 3000) Lab.hosts_cfg 0 in
  posted !! 0%nat = Some Lab.posted_dns /\
  posted !! 1%nat = Some Lab.posted_router /\
  post_at Lab.posted_dns = 3000%N /\
  post_at Lab.posted_router = (post_at Lab.posted_dns + 10)%N.
Proof.
  intros posted.
  destruct (probes_run_in_sequence (Lab.first_takes 3000) Lab.hosts_cfg 0%N)
    as (_ & Hfirst & Hnext).
  assert (H0 : posted !! 0%nat = Some Lab.posted_dns) by reflexivity.
  assert (H1 : posted !! 1%nat = Some Lab.posted_router) by reflexivity.
  split; [exact H0|]. split; [exact H1|]. split.
  - etransitivity; [exact (Hfirst _ H0)|]. vm_compute. reflexivity.
  - etransitivity; [exact (Hnext _ _ _ H0 H1)|]. vm_compute. reflexivity.
Defined.

(** * The further properties on the installations [Lab] and [Site] *)

#[local] Existing Instance Site.data.

Lemma ping_host_up_only_on_exit_zero_witness :
  (ping_host (fixed_os 0 linux_reply 15) Lab.dns PING_TIMEOUT 0).1 =
    (true, Some (123 # 10)%Q) /\
  exists proc,
    run_result (subprocess_run (fixed_os 0 linux_reply 15)
                  (ping_cmd (fixed_os 0 linux_reply 15) Lab.dns PING_TIMEOUT) 0%N) =
      inr proc /\
    returncode proc = 0.
Proof.
  assert (Hup : (ping_host (fixed_os 0 linux_reply 15) Lab.dns PING_TIMEOUT 0).1 =
                (true, Some (123 # 10)%Q)) by (vm_compute; reflexivity).
  split; [exact Hup|]. exact (ping_host_up_only_on_exit_zero _ _ _ _ _ Hup).
Defined.

Lemma ping_host_down_has_no_latency_witness :
  (ping_host (fixed_os 1 "" 2000) Lab.dns PING_TIMEOUT 0).1 = (false, None) /\
  @None Q = None.
Proof.
  assert (Hdown : (ping_host (fixed_os 1 "" 2000) Lab.dns PING_TIMEOUT 0).1 =
                  (false, None)) by (vm_compute; reflexivity).
  split; [exact Hdown|]. exact (ping_host_down_has_no_latency _ _ _ _ _ Hdown).
Defined.

Lemma ping_host_latency_source_witness :
  (ping_host (fixed_os 0 linux_reply 15) Lab.dns PING_TIMEOUT 0).1 =
    (true, Some (123 # 10)%Q) /\
  ((123 # 10)%Q = round1 (elapsed_ms (fixed_os 0 linux_reply 15) Lab.dns PING_TIMEOUT 0) \/
   exists proc line part tok rest,
     run_result (subprocess_run (fixed_os 0 linux_reply 15)
                   (ping_cmd (fixed_os 0 linux_reply 15) Lab.dns PING_TIMEOUT) 0%N) =
       inr proc /\
     line ∈ str_splitlines (stdout proc) /\
     PyStr.split_on "time=" (str_lower line) !! 1%nat = Some part /\
     str_split part = tok :: rest /\
     float_of_str (PyStr.replace "мс" "" (PyStr.replace "ms" "" tok)) =
       Some (123 # 10)%Q).
Proof.
  assert (Hup : (ping_host (fixed_os 0 linux_reply 15) Lab.dns PING_TIMEOUT 0).1 =
                (true, Some (123 # 10)%Q)) by (vm_compute; reflexivity).
  split; [exact Hup|]. exact (ping_host_latency_source _ _ _ _ _ Hup).
Defined.

Lemma ping_host_first_time_line_witness :
  str_splitlines linux_reply = [Site.reply_head] ++ Site.reply_line :: [] /\
  PyStr.split_on "time=" (str_lower Site.reply_line) !! 1%nat = Some "12.3 ms" /\
  str_split "12.3 ms" = ["12.3"; "ms"] /\
  (ping_host (fixed_os 0 linux_reply 15) Lab.dns PING_TIMEOUT 0).1 =
    (true, Some (123 # 10)%Q).
Proof.
  assert (Hlines : str_splitlines linux_reply =
                   [Site.reply_head] ++ Site.reply_line :: [])
    by (vm_compute; reflexivity).
  assert (Hpart : PyStr.split_on "time=" (str_lower Site.reply_line) !! 1%nat =
                  Some "12.3 ms") by (vm_compute; reflexivity).
  assert (Htok : str_split "12.3 ms" = ["12.3"; "ms"]) by (vm_compute; reflexivity).
  split; [exact Hlines|]. split; [exact Hpart|]. split; [exact Htok|].
  etransitivity.
  - apply (ping_host_first_time_line (fixed_os 0 linux_reply 15) Lab.dns
             PING_TIMEOUT 0%N {| returncode := 0; stdout := linux_reply |}
             [Site.reply_head] Site.reply_line [] "12.3 ms" "12.3" ["ms"]).
    + reflexivity.
    + reflexivity.
    + exact Hlines.
    + constructor; [vm_compute; reflexivity|constructor].
    + vm_compute. reflexivity.
    + exact Hpart.
    + exact Htok.
  - vm_compute. reflexivity.
Defined.

Lemma ping_host_fallback_no_time_witness :
  Forall (fun l => PyStr.contains "time=" (str_lower l) = false)
    (str_splitlines Site.windows_reply) /\
  (ping_host Site.lan_os Lab.router PING_TIMEOUT 0).1 = (true, Some (3 # 1)%Q).
Proof.
  assert (Hno : Forall (fun l => PyStr.contains "time=" (str_lower l) = false)
                  (str_splitlines Site.windows_reply)).
  { constructor; [vm_compute; reflexivity|constructor]. }
  split; [exact Hno|].
  etransitivity.
  - apply (ping_host_fallback_no_time Site.lan_os Lab.router PING_TIMEOUT 0%N
             {| returncode := 0; stdout := Site.windows_reply |}).
    + reflexivity.
    + reflexivity.
    + exact Hno.
  - vm_compute. reflexivity.
Defined.

Lemma ping_host_empty_token_witness :
  str_splitlines Lab.cut_reply = [] ++ Lab.cut_reply :: [] /\
  PyStr.split_on "time=" (str_lower Lab.cut_reply) !! 1%nat = Some "" /\
  str_split "" = [] /\
  (ping_host Lab.cut_os Lab.dns PING_TIMEOUT 0).1 = (false, None).
Proof.
  assert (Hlines : str_splitlines Lab.cut_reply = [] ++ Lab.cut_reply :: [])
    by (vm_compute; reflexivity).
  assert (Hpart : PyStr.split_on "time=" (str_lower Lab.cut_reply) !! 1%nat = Some "")
    by (vm_compute; reflexivity).
  assert (Htok : str_split "" = []) by (vm_compute; reflexivity).
  split; [exact Hlines|]. split; [exact Hpart|]. split; [exact Htok|].
  apply (ping_host_empty_token Lab.cut_os Lab.dns PING_TIMEOUT 0%N
           {| returncode := 0; stdout := Lab.cut_reply |} [] Lab.cut_reply [] "").
  - reflexivity.
  - reflexivity.
  - exact Hlines.
  - constructor.
  - vm_compute. reflexivity.
  - exact Hpart.
  - exact Htok.
Defined.

Lemma posted_times_ordered_witness :
  let posted := check_hosts (Lab.first_takes 3000) Lab.hosts_cfg 0 in
  (0 <= 1)%nat /\
  posted !! 0%nat = Some Lab.posted_dns /\
  posted !! 1%nat = Some Lab.posted_router /\
  (0 <= post_at Lab.posted_dns)%N /\
  (post_at Lab.posted_dns <= post_at Lab.posted_router)%N.
Proof.
  intros posted.
  assert (Hle : (0 <= 1)%nat) by lia.
  assert (H0 : posted !! 0%nat = Some Lab.posted_dns) by reflexivity.
  assert (H1 : posted !! 1%nat = Some Lab.posted_router) by reflexivity.
  split; [exact Hle|]. split; [exact H0|]. split; [exact H1|].
  exact (posted_times_ordered _ _ _ _ _ _ _ Hle H0 H1).
Defined.

Lemma dispatch_posted_row_witness :
  let s' := (dispatch Lab.start Lab.posted_dns 3001).1 in
  (Lab.posted_dns ∈ check_hosts (Lab.first_takes 3000) Lab.hosts_cfg 0) /\
  rows Lab.start !! Lab.dns = Some (fresh_row "Google DNS") /\
  rows s' !! Lab.dns =
    Some {| row_status := "OK"; row_rtt := "12.3";
            row_time := "00:00:03"; row_name := "Google DNS" |} /\
  last (get_history s' Lab.dns) = Some (3001%N, Some (123 # 10)%Q).
Proof.
  intros s'.
  assert (Hin : Lab.posted_dns ∈ check_hosts (Lab.first_takes 3000) Lab.hosts_cfg 0)
    by (apply (list_elem_of_lookup_2 _ 0%nat); reflexivity).
  assert (Hrow : rows Lab.start !! Lab.dns = Some (fresh_row "Google DNS"))
    by (vm_compute; reflexivity).
  split; [exact Hin|]. split; [exact Hrow|].
  destruct (dispatch_posted_row (Lab.first_takes 3000) Lab.start Lab.hosts_cfg 0%N
              Lab.posted_dns 3001%N _ Hin Hrow)
    as [(v & _ & Hv & Hr & Hl)|(Hdown & _)]; [|discriminate Hdown].
  injection Hv as <-. split; [|exact Hl].
  etransitivity; [exact Hr|]. vm_compute. reflexivity.
Defined.

Lemma stored_status_is_latest_witness :
  is_Some (rows Lab.start !! Lab.dns) /\
  get_prev (run Lab.start Lab.flapping).1 Lab.dns = Some true.
Proof.
  assert (Hrow : is_Some (rows Lab.start !! Lab.dns))
    by (eexists; vm_compute; reflexivity).
  split; [exact Hrow|].
  etransitivity; [exact (stored_status_is_latest Lab.start Lab.flapping Lab.dns Hrow)|].
  vm_compute. reflexivity.
Defined.

Lemma callback_touches_one_host_witness :
  let c := Lab.probe Lab.dns false 0 in
  c_host c <> Lab.router /\
  rows (call Lab.start c).1 !! Lab.router = rows Lab.start !! Lab.router /\
  get_prev (call Lab.start c).1 Lab.router = get_prev Lab.start Lab.router /\
  get_history (call Lab.start c).1 Lab.router = get_history Lab.start Lab.router.
Proof.
  intros c.
  assert (Hne : c_host c <> Lab.router) by discriminate.
  split; [exact Hne|]. exact (callback_touches_one_host Lab.start c Lab.router Hne).
Defined.

Lemma events_are_the_status_changes_witness :
  is_Some (rows Lab.start !! Lab.dns) /\
  Forall (fun c => c_host c = Lab.dns) Lab.flapping /\
  events (run Lab.start Lab.flapping).1 =
    [ "[00:00:10] Google DNS (8.8.8.8): DOWN";
      "[00:00:20] Google DNS (8.8.8.8): UP" ].
Proof.
  assert (Hrow : is_Some (rows Lab.start !! Lab.dns))
    by (eexists; vm_compute; reflexivity).
  assert (Hall : Forall (fun c => c_host c = Lab.dns) Lab.flapping)
    by (repeat constructor).
  split; [exact Hrow|]. split; [exact Hall|].
  etransitivity;
    [exact (events_are_the_status_changes Lab.start Lab.flapping Lab.dns Hrow Hall)|].
  vm_compute. reflexivity.
Defined.

Lemma no_telegram_unless_configured_witness :
  telegram_ready Site.quiet = false /\
  Forall (fun x => is_telegram x.2 = false) (run Site.quiet Lab.flapping).2.
Proof.
  assert (Hoff : telegram_ready Site.quiet = false) by (vm_compute; reflexivity).
  split; [exact Hoff|]. exact (no_telegram_unless_configured _ _ Hoff).
Defined.

Lemma build_rows_keeps_configured_witness :
  let s := (run Lab.start Lab.flapping).1 in
  (Lab.dns ∈ h_host <$> hosts s) /\
  ("10.9.9.9" ∉ h_host <$> hosts s) /\
  get_prev (build_rows s) Lab.dns = get_prev s Lab.dns /\
  get_history (build_rows s) Lab.dns = get_history s Lab.dns /\
  rows (build_rows s) !! "10.9.9.9" = None.
Proof.
  intros s.
  assert (Hin : Lab.dns ∈ h_host <$> hosts s) by compute_done.
  assert (Hout : "10.9.9.9" ∉ h_host <$> hosts s) by compute_done.
  split; [exact Hin|]. split; [exact Hout|].
  destruct (build_rows_keeps_configured s Lab.dns) as [Hkept _].
  destruct (build_rows_keeps_configured s "10.9.9.9") as [_ Hgone].
  destruct (Hkept Hin) as (Hp & Hh & _). destruct (Hgone Hout) as (_ & _ & Hr).
  split; [exact Hp|]. split; [exact Hh|exact Hr].
Defined.

Lemma deleted_host_result_dropped_witness :
  let x := {| h_name := "Router"; h_host := Lab.router |} in
  let c := Lab.probe Lab.router true 7000 in
  hosts Lab.start !! 1%nat = Some x /\
  (h_host x ∉ h_host <$> delete 1%nat (hosts Lab.start)) /\
  c_host c = h_host x /\
  call (on_delete Lab.start 1) c = (on_delete Lab.start 1, []).
Proof.
  intros x c.
  assert (Hx : hosts Lab.start !! 1%nat = Some x) by (vm_compute; reflexivity).
  assert (Hgone : h_host x ∉ h_host <$> delete 1%nat (hosts Lab.start))
    by compute_done.
  assert (Hc : c_host c = h_host x) by reflexivity.
  split; [exact Hx|]. split; [exact Hgone|]. split; [exact Hc|].
  exact (proj1 (deleted_host_result_dropped Lab.start 1 x c Hx Hgone Hc)).
Defined.

Lemma on_save_appends_host_witness :
  "1.1.1.1" <> "" /\
  (Lab.dns ∈ h_host <$> hosts Lab.start ++
     [{| h_name := "1.1.1.1"; h_host := "1.1.1.1" |}]) /\
  hosts Site.three_hosts =
    hosts Lab.start ++ [{| h_name := "1.1.1.1"; h_host := "1.1.1.1" |}] /\
  is_Some (rows Site.three_hosts !! "1.1.1.1") /\
  get_history Site.three_hosts Lab.dns = get_history Lab.start Lab.dns.
Proof.
  assert (Hne : "1.1.1.1" <> "") by discriminate.
  assert (Hin : Lab.dns ∈ h_host <$> hosts Lab.start ++
                  [{| h_name := "1.1.1.1"; h_host := "1.1.1.1" |}]) by compute_done.
  split; [exact Hne|]. split; [exact Hin|].
  destruct (on_save_appends_host Lab.start "" "1.1.1.1" Lab.dns) as [_ Hadd].
  destruct (Hadd Hne) as (Hhosts & _ & Hrow & Hkept).
  destruct (Hkept Hin) as [_ Hh].
  split; [exact Hhosts|]. split; [exact Hrow|exact Hh].
Defined.

Lemma hosts_stay_valid_witness :
  Forall valid_host (hosts Lab.start) /\
  Forall valid_host
    (hosts (exec Lab.start [OpSave "" "1.1.1.1" None; OpDelete 0;
                            OpUpdateRow (Lab.probe Lab.router true 0)])).
Proof.
  assert (Hv : Forall valid_host (hosts Lab.start)).
  { unfold Lab.start. rewrite init_hosts. repeat constructor; discriminate. }
  split; [exact Hv|]. exact (hosts_stay_valid _ _ Hv).
Defined.

Lemma build_rows_graph_selection_witness :
  let s := set_hosts Lab.start [{| h_name := "Router"; h_host := Lab.router |}] in
  graph_host_var s = Some Lab.dns /\
  graph_host_var (build_rows s) = Some Lab.router.
Proof.
  intros s.
  assert (Hold : graph_host_var s = Some Lab.dns) by (vm_compute; reflexivity).
  split; [exact Hold|].
  destruct (build_rows_graph_selection s Lab.dns Hold) as (cur & Hcur & _ & Hsel).
  rewrite Hcur. f_equal.
  destruct Hsel as [Hin|[Hnil _]]; [|discriminate Hnil].
  apply list_elem_of_singleton in Hin. exact Hin.
Defined.


Lemma init_all_unknown_witness :
  rows Lab.start !! Lab.dns = Some (fresh_row "Google DNS") /\
  (Lab.dns ∈ h_host <$> Lab.hosts_cfg) /\
  get_prev Lab.start Lab.dns = None /\
  is_Some (rows Lab.start !! Lab.dns) /\
  row_status (fresh_row "Google DNS") = "...".
Proof.
  assert (Hrow : rows Lab.start !! Lab.dns = Some (fresh_row "Google DNS"))
    by (vm_compute; reflexivity).
  assert (Hin : Lab.dns ∈ h_host <$> Lab.hosts_cfg) by compute_done.
  split; [exact Hrow|]. split; [exact Hin|].
  destruct (init_all_unknown Lab.hosts_cfg true "123:abc" "42" Lab.dns)
    as (Hp & _ & _ & _ & _ & Hiff & Hfresh).
  split; [exact Hp|]. split; [exact (proj2 Hiff Hin)|].
  exact (proj1 (Hfresh _ Hrow)).
Defined.

Lemma load_settings_hosts_valid_witness :
  load_settings Site.edited_file = Some Site.edited_settings /\
  st_hosts Site.edited_settings <> [] /\
  Forall valid_host (st_hosts Site.edited_settings).
Proof.
  assert (Hload : load_settings Site.edited_file = Some Site.edited_settings)
    by (vm_compute; reflexivity).
  split; [exact Hload|]. exact (load_settings_hosts_valid _ _ Hload).
Defined.

Lemma settings_round_trip_witness :
  hosts Lab.start <> [] /\
  Forall (fun h => valid_host h /\
                   str_strip (h_host h) = h_host h /\
                   str_strip (h_name h) = h_name h) (hosts Lab.start) /\
  load_settings (save_settings Lab.start Written NoFile) =
    Some {| st_hosts := hosts Lab.start; st_enabled := true;
            st_token := "123:abc"; st_chat_id := "42" |}.
Proof.
  assert (Hhosts : hosts Lab.start = Lab.hosts_cfg)
    by (unfold Lab.start; apply init_hosts).
  assert (Hne : hosts Lab.start <> []) by (rewrite Hhosts; discriminate).
  assert (Hall : Forall (fun h => valid_host h /\
                   str_strip (h_host h) = h_host h /\
                   str_strip (h_name h) = h_name h) (hosts Lab.start)).
  { rewrite Hhosts.
    repeat constructor; try discriminate; vm_compute; reflexivity. }
  split; [exact Hne|]. split; [exact Hall|].
  exact (settings_round_trip Lab.start NoFile Hne Hall).
Defined.

Lemma empty_host_list_reverts_to_defaults_witness :
  let s := on_delete (on_delete Lab.start 0) 0 in
  hosts s = [] /\
  st_hosts <$> load_settings (save_settings s Written NoFile) = Some DEFAULT_HOSTS.
Proof.
  intros s.
  assert (Hnil : hosts s = []) by (vm_compute; reflexivity).
  split; [exact Hnil|].
  rewrite (empty_host_list_reverts_to_defaults s NoFile Hnil). reflexivity.
Defined.

Lemma load_settings_raises_iff_witness :
  load_settings Site.list_file = None.
Proof.
  apply load_settings_raises_iff. left. reflexivity.
Defined.

Lemma startup_invariants_witness :
  let s := init (st_hosts Site.edited_settings) true "123:abc" "42" in
  startup Site.edited_file = Some s /\
  hosts s <> [] /\
  Forall valid_host (hosts (exec s [OpDelete 0])).
Proof.
  intros s.
  assert (Hstart : startup Site.edited_file = Some s) by reflexivity.
  split; [exact Hstart|].
  destruct (startup_invariants Site.edited_file s [OpDelete 0] Hstart)
    as (Hne & Hv & _).
  split; [exact Hne|exact Hv].
Defined.
